(** * Infinite scroll widget: a shallow embedding of [IS.tsx] and its
      ref-based sibling, with the properties of the written specification.

    The repository holds two versions of the same React function component
    [InfiniteScrollExtend]:

    - [src/src/IS.tsx], which keeps its run-time state in [let] variables of
      the component body (module [IS] below);
    - [src/unnamed/part_000], which keeps it in [useRef] cells (module
      [ISRef] below).

    Conventions of the embedding.

    - DOM nodes live in a store addressed by references ([ref]); a nullable
      JavaScript reference is an [option ref].  Geometry properties are
      integers ([Z]).
    - A property read on [null] raises [TypeError]; unbounded recursion is
      cut by a fuel argument and reported as [Diverges].
    - What a handler does to the outside world (listener registration, the
      call of the [loadMore] callback, [preventDefault], scroll position
      writes) is recorded in a log of [Effect]s; the third argument of
      [addEventListener] / [removeEventListener] is not modelled.
    - A handler is a computation in the monad [M]: it threads the store of
      the component, appends to the log, and may throw; what was written
      before a throw stays written, as in JavaScript. *)

From Stdlib Require Import String ZArith List Bool Lia.
Import ListNotations.
Open Scope Z_scope.

(** ** The browser side *)

Definition ref := nat.

Record HTMLElement := mkElement {
  offsetTop : Z;
  offsetParent : option ref;
  offsetHeight : Z;
  scrollHeight : Z;
  scrollTop : Z;
  clientHeight : Z;
  parentNode : option ref
}.

(** [pageYOffset] is [None] where the browser leaves [window.pageYOffset]
    undefined; [docScrollTop] is the [scrollTop] of
    [document.documentElement || document.body.parentNode || document.body];
    [passiveSupported] is what the feature probe [isPassiveSupported] finds;
    [elementScrollTo] tells whether elements have a [scrollTo] method (the
    window always has one). *)
Record DOM := mkDOM {
  node : ref -> HTMLElement;
  pageYOffset : option Z;
  innerHeight : Z;
  docScrollTop : Z;
  passiveSupported : bool;
  elementScrollTo : bool
}.

Inductive EventTarget := Window | Element (r : ref).
Inductive EventType := mousewheel | scroll | resize.

Inductive Effect :=
| AddEventListener (t : EventTarget) (ty : EventType)
| RemoveEventListener (t : EventTarget) (ty : EventType)
| LoadMore (page : Z)
| PreventDefault
| ScrollTo (t : EventTarget) (x y : Z)
| SetScrollTop (t : EventTarget) (y : Z).

(** ** Results and the handler monad *)

Inductive Exn := TypeError | Diverges.

Inductive Result (A : Type) :=
| Ok (a : A)
| Throw (e : Exn).
Arguments Ok {A} a.
Arguments Throw {A} e.

Definition rbind {A B} (r : Result A) (k : A -> Result B) : Result B :=
  match r with
  | Ok a => k a
  | Throw e => Throw e
  end.

Definition M (S A : Type) : Type := S -> Result A * S * list Effect.

Definition ret {S A} (a : A) : M S A := fun s => (Ok a, s, []).

Definition bind {S A B} (m : M S A) (k : A -> M S B) : M S B :=
  fun s =>
    match m s with
    | (Ok a, s1, l1) =>
        match k a s1 with
        | (r, s2, l2) => (r, s2, l1 ++ l2)
        end
    | (Throw e, s1, l1) => (Throw e, s1, l1)
    end.

Definition get {S} : M S S := fun s => (Ok s, s, []).
Definition modify {S} (f : S -> S) : M S unit := fun s => (Ok tt, f s, []).
Definition emit {S} (e : Effect) : M S unit := fun s => (Ok tt, s, [e]).
Definition liftR {S A} (r : Result A) : M S A := fun s => (r, s, []).

Declare Scope handler_scope.
Delimit Scope handler_scope with handler.
Notation "x <- m ;; k" := (bind m (fun x => k))
  (at level 61, m at next level, right associativity) : handler_scope.
Notation "m ;; k" := (bind m (fun _ => k))
  (at level 61, right associativity) : handler_scope.
Notation "x <~ r ;; k" := (rbind r (fun x => k))
  (at level 61, r at next level, right associativity) : handler_scope.
Open Scope handler_scope.

Definition result_of {S A} (o : Result A * S * list Effect) : Result A := fst (fst o).
Definition store_of {S A} (o : Result A * S * list Effect) : S := snd (fst o).
Definition log_of {S A} (o : Result A * S * list Effect) : list Effect := snd o.

(** Reading a property of a nullable element: [null.p] is a [TypeError]. *)
Definition deref (d : DOM) (el : option ref) : Result HTMLElement :=
  match el with
  | Some r => Ok (node d r)
  | None => Throw TypeError
  end.

Definition isSome {A} (o : option A) : bool :=
  match o with Some _ => true | None => false end.

(** ** The configuration *)

Definition ReactNode := string.

(** [loadMore] is [true] when the caller supplied a function
    ([typeof loadMore === 'function']); its calls are logged as
    [LoadMore page].  [getScrollParent] is [None] when no override was
    supplied and [Some v] when the override returns [v]. *)
Record InfiniteScrollProps := mkProps {
  element : string;
  hasMore : bool;
  initialLoad : bool;
  isReverse : bool;
  loadMore : bool;
  pageStart : Z;
  threshold : Z;
  useCapture : bool;
  useWindow : bool;
  loader : option ReactNode;
  getScrollParent : option (option ref);
  children : ReactNode
}.

(** The defaults of the destructuring at the head of the component. *)
Definition defaultProps (c : ReactNode) : InfiniteScrollProps :=
  {| element := "div"; hasMore := false; initialLoad := true;
     isReverse := false; loadMore := false; pageStart := 0;
     threshold := 250; useCapture := false; useWindow := true;
     loader := None; getScrollParent := None; children := c |}.

(** ** Functions the two versions share *)

Definition isPassiveSupported (d : DOM) : bool := passiveSupported d.

(** [calculateTopPosition]: [null] gives 0 before anything else; otherwise
    one recursive call per link of the [offsetParent] chain. *)
Fixpoint calculateTopPosition (fuel : nat) (d : DOM) (el : option ref) : Result Z :=
  match el with
  | None => Ok 0
  | Some r =>
      match fuel with
      | O => Throw Diverges
      | S fuel' =>
          rest <~ calculateTopPosition fuel' d (offsetParent (node d r)) ;;
          Ok (offsetTop (node d r) + rest)
      end
  end.

Definition calculateOffset (fuel : nat) (d : DOM) (el : option ref) (scrollTop : Z)
  : Result Z :=
  match el with
  | None => Ok 0
  | Some r =>
      top <~ calculateTopPosition fuel d (Some r) ;;
      Ok (top + (offsetHeight (node d r) - scrollTop - innerHeight d))
  end.

Definition getParentElement (p : InfiniteScrollProps) (d : DOM) (el : option ref)
  : option ref :=
  match getScrollParent p with
  | Some (Some scrollParent) => Some scrollParent
  | _ =>
      match el with
      | Some r => parentNode (node d r)
      | None => None
      end
  end.

Definition mousewheelListener {S} (d : DOM) (deltaY : Z) : M S unit :=
  if (deltaY =? 1) && negb (isPassiveSupported d)
  then emit PreventDefault
  else ret tt.

(** [scrollEl.pageYOffset !== undefined ? scrollEl.pageYOffset : doc.scrollTop],
    where [scrollEl] is the given target: an element has no [pageYOffset]. *)
Definition windowScrollTop (d : DOM) (win : EventTarget) : Z :=
  match win with
  | Window =>
      match pageYOffset d with
      | Some y => y
      | None => docScrollTop d
      end
  | Element _ => docScrollTop d
  end.

(** [el && el.offsetParent !== null] *)
Definition visible (d : DOM) (el : option ref) : bool :=
  match el with
  | Some r => isSome (offsetParent (node d r))
  | None => false
  end.

(** [childrenArray] of the render: the children, and the loader before or
    after them while [hasMore] holds. *)
Definition childrenArray (p : InfiniteScrollProps) : list ReactNode :=
  if hasMore p then
    match loader p with
    | Some l => if isReverse p then [l; children p] else [children p; l]
    | None => [children p]
    end
  else [children p].

(** The [offsetParent] chain of an element, when it ends in [null]. *)
Inductive offsetChain (d : DOM) : option ref -> list ref -> Prop :=
| chain_null : offsetChain d None []
| chain_step : forall r l,
    offsetChain d (offsetParent (node d r)) l ->
    offsetChain d (Some r) (r :: l).

Definition sumOffsetTop (d : DOM) (l : list ref) : Z :=
  fold_right (fun r acc => offsetTop (node d r) + acc) 0 l.

(** ** [src/src/IS.tsx]: state in the variables of the component body *)

Module IS.

Record Store := mkStore {
  scrollComponentRef : option ref;
  isLoadMore : bool;
  beforeScrollHeight : Z;
  beforeScrollTop : Z;
  pageLoaded : Z
}.

Definition set_isLoadMore (b : bool) (s : Store) : Store :=
  mkStore (scrollComponentRef s) b (beforeScrollHeight s) (beforeScrollTop s)
          (pageLoaded s).
Definition set_beforeScrollHeight (z : Z) (s : Store) : Store :=
  mkStore (scrollComponentRef s) (isLoadMore s) z (beforeScrollTop s) (pageLoaded s).
Definition set_beforeScrollTop (z : Z) (s : Store) : Store :=
  mkStore (scrollComponentRef s) (isLoadMore s) (beforeScrollHeight s) z (pageLoaded s).
Definition set_pageLoaded (z : Z) (s : Store) : Store :=
  mkStore (scrollComponentRef s) (isLoadMore s) (beforeScrollHeight s)
          (beforeScrollTop s) z.

(** The target the listeners go to: the window, unless [useWindow] is
    [false] and there is a parent element. *)
Definition scrollTarget (p : InfiniteScrollProps) (parentElement : option ref)
  : EventTarget :=
  match parentElement with
  | Some r => if negb (useWindow p) then Element r else Window
  | None => Window
  end.

Definition detachMousewheelListener (p : InfiniteScrollProps) (d : DOM)
  : M Store unit :=
  s <- get ;;
  scrollEl <- liftR (if negb (useWindow p)
                     then e <~ deref d (scrollComponentRef s) ;;
                          Ok (scrollTarget p (parentNode e))
                     else Ok Window) ;;
  emit (RemoveEventListener scrollEl mousewheel).

Definition detachScrollListener (p : InfiniteScrollProps) (d : DOM)
  : M Store unit :=
  s <- get ;;
  let scrollEl := scrollTarget p (getParentElement p d (scrollComponentRef s)) in
  emit (RemoveEventListener scrollEl scroll) ;;
  emit (RemoveEventListener scrollEl resize).

(** The [let offset; if ... else ...] block of [scrollListener]. *)
Definition scrollOffset (p : InfiniteScrollProps) (d : DOM) (fuel : nat)
    (el parentNode : option ref) : Result Z :=
  if useWindow p then
    let scrollTop := windowScrollTop d Window in
    if isReverse p then Ok scrollTop
    else calculateOffset fuel d el scrollTop
  else if isReverse p && isSome parentNode then
    pn <~ deref d parentNode ;; Ok (scrollTop pn)
  else
    e <~ deref d el ;;
    pn <~ deref d parentNode ;;
    Ok (scrollHeight e - scrollTop pn - clientHeight pn).

Definition scrollListener (p : InfiniteScrollProps) (d : DOM) (fuel : nat)
  : M Store unit :=
  s <- get ;;
  let el := scrollComponentRef s in
  let parentNode := getParentElement p d el in
  offset <- liftR (scrollOffset p d fuel el parentNode) ;;
  if (offset <? threshold p) && visible d el then
    detachScrollListener p d ;;
    pn <- liftR (deref d parentNode) ;;
    modify (set_beforeScrollHeight (scrollHeight pn)) ;;
    modify (set_beforeScrollTop (scrollTop pn)) ;;
    if loadMore p then
      modify (fun s => set_pageLoaded (pageLoaded s + 1) s) ;;
      s' <- get ;;
      emit (LoadMore (pageLoaded s')) ;;
      modify (set_isLoadMore true)
    else ret tt
  else ret tt.

Definition attachScrollListener (p : InfiniteScrollProps) (d : DOM) (fuel : nat)
  : M Store unit :=
  s <- get ;;
  let parentElement := getParentElement p d (scrollComponentRef s) in
  if negb (hasMore p) || negb (isSome parentElement) then ret tt
  else
    let scrollEl := scrollTarget p parentElement in
    emit (AddEventListener scrollEl mousewheel) ;;
    emit (AddEventListener scrollEl scroll) ;;
    emit (AddEventListener scrollEl resize) ;;
    if initialLoad p then scrollListener p d fuel else ret tt.

Definition resetPage (pageStart : Z) : Z :=
  if pageStart =? -1 then 0 else pageStart.

(** [useEffect(..., [pageStart])] and its cleanup. *)
Definition effectPageStart (p : InfiniteScrollProps) (d : DOM) (fuel : nat)
  : M Store unit :=
  modify (set_pageLoaded (resetPage (pageStart p))) ;;
  attachScrollListener p d fuel.

Definition cleanup (p : InfiniteScrollProps) (d : DOM) : M Store unit :=
  detachScrollListener p d ;;
  detachMousewheelListener p d.

(** The [useEffect] without dependencies, run after every render; the
    scroll compensation in it is commented out. *)
Definition effectEveryRender (p : InfiniteScrollProps) (d : DOM) (fuel : nat)
  : M Store unit :=
  attachScrollListener p d fuel.

(** The body of the component: every render declares the four variables
    afresh and builds the children. *)
Definition render (p : InfiniteScrollProps) : M Store (list ReactNode) :=
  modify (fun s => mkStore (scrollComponentRef s) false 0 0 0) ;;
  ret (childrenArray p).

(** React's schedule: on mount the body, then the effects in order; on an
    update the body, the cleanups of the effects that run again (those of
    the previous render), then these effects. *)
Definition mount (p : InfiniteScrollProps) (d : DOM) (fuel : nat) : M Store unit :=
  render p ;;
  effectPageStart p d fuel ;;
  effectEveryRender p d fuel.

Definition update (prev p : InfiniteScrollProps) (d : DOM) (fuel : nat)
  : M Store unit :=
  render p ;;
  (if pageStart prev =? pageStart p then ret tt else cleanup prev d) ;;
  cleanup prev d ;;
  (if pageStart prev =? pageStart p then ret tt else effectPageStart p d fuel) ;;
  effectEveryRender p d fuel.

End IS.

(** ** [src/unnamed/part_000]: state in [useRef] cells *)

Module ISRef.

(** [beforeSizeType]; the fields are [scrollHeight] and [scrollTop] in the
    source. *)
Record beforeSizeType := mkBeforeSize {
  sizeScrollHeight : Z;
  sizeScrollTop : Z
}.

Record Store := mkStore {
  scrollComponentRef : option ref;
  isLoadMoreRef : bool;
  pageLoadedRef : Z;
  beforeSizeRef : beforeSizeType;
  scrollContainerRef : EventTarget
}.

(** What the refs hold before the first effect runs. *)
Definition initialStore (el : option ref) : Store :=
  mkStore el false 0 (mkBeforeSize 0 0) Window.

Definition set_isLoadMoreRef (b : bool) (s : Store) : Store :=
  mkStore (scrollComponentRef s) b (pageLoadedRef s) (beforeSizeRef s)
          (scrollContainerRef s).
Definition set_pageLoadedRef (z : Z) (s : Store) : Store :=
  mkStore (scrollComponentRef s) (isLoadMoreRef s) z (beforeSizeRef s)
          (scrollContainerRef s).
Definition set_beforeSizeRef (b : beforeSizeType) (s : Store) : Store :=
  mkStore (scrollComponentRef s) (isLoadMoreRef s) (pageLoadedRef s) b
          (scrollContainerRef s).
Definition set_scrollContainerRef (t : EventTarget) (s : Store) : Store :=
  mkStore (scrollComponentRef s) (isLoadMoreRef s) (pageLoadedRef s)
          (beforeSizeRef s) t.

(** [parentNode.scrollTop] and [parentNode.clientHeight] where
    [parentNode] is the scroll container cast to an element: the window has
    neither, so the read gives [undefined] ([None]). *)
Definition containerScrollTop (d : DOM) (t : EventTarget) : option Z :=
  match t with
  | Element r => Some (scrollTop (node d r))
  | Window => None
  end.

Definition containerClientHeight (d : DOM) (t : EventTarget) : option Z :=
  match t with
  | Element r => Some (clientHeight (node d r))
  | Window => None
  end.

(** Subtraction of JavaScript numbers: [undefined] and [NaN] ([None])
    absorb. *)
Definition jsSub (a b : option Z) : option Z :=
  match a, b with
  | Some x, Some y => Some (x - y)
  | _, _ => None
  end.

(** The [let offset; if ... else ...] block of [scrollListener].  The
    scroll container is the window or an element, never [null], so
    [isReverse && parentNode] is [isReverse]. *)
Definition scrollOffset (p : InfiniteScrollProps) (d : DOM) (fuel : nat)
    (el : option ref) (container : EventTarget) : Result (option Z) :=
  if useWindow p then
    let scrollTop := windowScrollTop d container in
    if isReverse p then Ok (Some scrollTop)
    else z <~ calculateOffset fuel d el scrollTop ;; Ok (Some z)
  else if isReverse p then
    Ok (containerScrollTop d container)
  else
    e <~ deref d el ;;
    Ok (jsSub (jsSub (Some (scrollHeight e)) (containerScrollTop d container))
              (containerClientHeight d container)).

(** The guard is [offset <= Number(threshold) && el && el.offsetParent !== null];
    the comparison is [false] when [offset] is not a number. *)
Definition scrollListener (p : InfiniteScrollProps) (d : DOM) (fuel : nat)
  : M Store unit :=
  s <- get ;;
  let el := scrollComponentRef s in
  offset <- liftR (scrollOffset p d fuel el (scrollContainerRef s)) ;;
  match offset with
  | Some z =>
      if (z <=? threshold p) && visible d el then
        (if isReverse p then
           e <- liftR (deref d el) ;;
           modify (fun s =>
             set_beforeSizeRef
               (mkBeforeSize (scrollHeight e) (sizeScrollTop (beforeSizeRef s))) s) ;;
           modify (fun s =>
             set_beforeSizeRef
               (mkBeforeSize (sizeScrollHeight (beforeSizeRef s)) z) s)
         else ret tt) ;;
        if loadMore p then
          modify (fun s => set_pageLoadedRef (pageLoadedRef s + 1) s) ;;
          s' <- get ;;
          emit (LoadMore (pageLoadedRef s')) ;;
          modify (set_isLoadMoreRef true)
        else ret tt
      else ret tt
  | None => ret tt
  end.

Definition attachScrollListener : M Store unit :=
  s <- get ;;
  emit (AddEventListener (scrollContainerRef s) mousewheel) ;;
  emit (AddEventListener (scrollContainerRef s) scroll) ;;
  emit (AddEventListener (scrollContainerRef s) resize).

Definition detachScrollListener : M Store unit :=
  s <- get ;;
  emit (RemoveEventListener (scrollContainerRef s) mousewheel) ;;
  emit (RemoveEventListener (scrollContainerRef s) scroll) ;;
  emit (RemoveEventListener (scrollContainerRef s) resize).

Definition resetPage (pageStart : Z) : Z :=
  if pageStart =? -1 then 0 else pageStart.

(** [useEffect(..., [pageStart])] and its cleanup. *)
Definition effectPageStart (p : InfiniteScrollProps) (d : DOM) (fuel : nat)
  : M Store unit :=
  modify (set_pageLoadedRef (resetPage (pageStart p))) ;;
  s <- get ;;
  (match getParentElement p d (scrollComponentRef s) with
   | Some parentElement =>
       if negb (useWindow p)
       then modify (set_scrollContainerRef (Element parentElement))
       else ret tt
   | None => ret tt
   end) ;;
  attachScrollListener ;;
  if initialLoad p then scrollListener p d fuel else ret tt.

Definition cleanup : M Store unit := detachScrollListener.

(** [typeof scrollContainerRef.current.scrollTo === 'function'] *)
Definition scrollToIsFunction (d : DOM) (t : EventTarget) : bool :=
  match t with
  | Window => true
  | Element _ => elementScrollTo d
  end.

(** The [useEffect] without dependencies, run after every render: the
    scroll compensation of reverse mode. *)
Definition effectEveryRender (p : InfiniteScrollProps) (d : DOM) : M Store unit :=
  s <- get ;;
  if isReverse p && isLoadMoreRef s then
    e <- liftR (deref d (scrollComponentRef s)) ;;
    let y := scrollHeight e - sizeScrollHeight (beforeSizeRef s)
             + sizeScrollTop (beforeSizeRef s) in
    (if scrollToIsFunction d (scrollContainerRef s)
     then emit (ScrollTo (scrollContainerRef s) 0 y)
     else emit (SetScrollTop (scrollContainerRef s) y)) ;;
    modify (set_isLoadMoreRef false)
  else ret tt.

Definition render (p : InfiniteScrollProps) : M Store (list ReactNode) :=
  ret (childrenArray p).

Definition mount (p : InfiniteScrollProps) (d : DOM) (fuel : nat) : M Store unit :=
  render p ;;
  effectPageStart p d fuel ;;
  effectEveryRender p d.

Definition update (prev p : InfiniteScrollProps) (d : DOM) (fuel : nat)
  : M Store unit :=
  render p ;;
  (if pageStart prev =? pageStart p then ret tt
   else cleanup ;; effectPageStart p d fuel) ;;
  effectEveryRender p d.

(** What can run between two initialisations: a scroll or resize event, a
    wheel event, a render whose [pageStart] is unchanged, the cleanup. *)
Inductive Entry :=
| OnScroll
| OnResize
| OnWheel (deltaY : Z)
| OnRender
| OnCleanup.

Definition dispatch (p : InfiniteScrollProps) (d : DOM) (fuel : nat) (e : Entry)
  : M Store unit :=
  match e with
  | OnScroll | OnResize => scrollListener p d fuel
  | OnWheel deltaY => mousewheelListener d deltaY
  | OnRender => render p ;; effectEveryRender p d
  | OnCleanup => cleanup
  end.

(** A run of entries, each with the props its closure holds and the DOM
    of its moment; a throw ends one entry, not the run. *)
Fixpoint run (fuel : nat) (es : list (InfiniteScrollProps * DOM * Entry)) (s : Store)
  : Store :=
  match es with
  | [] => s
  | (p, d, e) :: es' => run fuel es' (store_of (dispatch p d fuel e s))
  end.

End ISRef.

(** ** Reading logs *)

Definition isLoadMoreCall (e : Effect) : bool :=
  match e with LoadMore _ => true | _ => false end.

Definition isListenerAdded (e : Effect) : bool :=
  match e with AddEventListener _ _ => true | _ => false end.

Definition isScrollWrite (e : Effect) : bool :=
  match e with ScrollTo _ _ _ | SetScrollTop _ _ => true | _ => false end.

(** The pages [loadMore] was called with, in order. *)
Fixpoint loadMorePages (l : list Effect) : list Z :=
  match l with
  | [] => []
  | LoadMore page :: l' => page :: loadMorePages l'
  | _ :: l' => loadMorePages l'
  end.

Definition loadMoreCalled (l : list Effect) : bool := existsb isLoadMoreCall l.

(** ** The formulas of the written specification, word for word *)

(** Wording of the specification: the wheel delta is in the forward
    direction. *)
Definition specForwardDelta (deltaY : Z) : bool := 0 <? deltaY.

(** Wording of the specification: cumulative [offsetTop], plus the
    container's own scroll height, minus the window scroll Y, minus the
    window inner height. *)
Definition specWindowOffset (d : DOM) (chain : list ref) (el : ref) (scrollY : Z) : Z :=
  sumOffsetTop d chain + scrollHeight (node d el) - scrollY - innerHeight d.

(** Wording of the specification: the scrollable container's [scrollHeight]
    minus its [scrollTop] minus its [clientHeight]. *)
Definition specContainerOffset (d : DOM) (container : ref) : Z :=
  scrollHeight (node d container) - scrollTop (node d container)
  - clientHeight (node d container).

(** ** Concrete pages used to exercise the definitions *)

Module Examples.

Definition body : HTMLElement := mkElement 0 None 2000 2000 0 800 None.
Definition pane : HTMLElement :=
  mkElement 100 (Some 0%nat) 500 1200 300 500 (Some 0%nat).
Definition items : HTMLElement :=
  mkElement 20 (Some 1%nat) 1000 1400 0 1000 (Some 1%nat).
Definition detached : HTMLElement := mkElement 0 None 0 0 0 0 None.

(** A body (0) holding a pane (1) holding the widget's element (2). *)
Definition nodes (r : ref) : HTMLElement :=
  match r with
  | 0%nat => body
  | 1%nat => pane
  | 2%nat => items
  | _ => detached
  end.

(** The page scrolled to [y], in a browser with or without passive
    listeners. *)
Definition page (y : Z) (passive : bool) : DOM :=
  mkDOM nodes (Some y) 800 y passive true.

(** The same page after more items arrived: the widget's element grew. *)
Definition grown (y : Z) : DOM :=
  mkDOM (fun r => match r with
                  | 2%nat => mkElement 20 (Some 1%nat) 1600 2000 0 1600 (Some 1%nat)
                  | _ => nodes r
                  end)
        (Some y) 800 y true true.

(** A store of nodes where every node is its own [offsetParent]. *)
Definition knot : DOM :=
  mkDOM (fun r => mkElement 1 (Some r) 0 0 0 0 None) (Some 0) 800 0 true true.

Definition scroller : InfiniteScrollProps :=
  mkProps "div" true true false true 0 250 false true None None "items"%string.

Definition startingAt (pageStart : Z) : InfiniteScrollProps :=
  mkProps "div" true true false true pageStart 250 false true None None "items"%string.

Definition fromPage5 : InfiniteScrollProps := startingAt 5.

Definition reverseScroller : InfiniteScrollProps :=
  mkProps "div" true true true true 0 250 false true (Some "spinner"%string) None "items"%string.

Definition paneScroller : InfiniteScrollProps :=
  mkProps "div" true true false true 0 250 false false None None "items"%string.

Definition exhausted : InfiniteScrollProps :=
  mkProps "div" false true false true 0 250 false true (Some "spinner"%string) None "items"%string.

Definition fresh : IS.Store := IS.mkStore (Some 2%nat) false 0 0 0.

End Examples.

(** ** What a firing listener leaves behind *)

(** The store of the ref-based version after its listener fired on element
    [e] at offset [z]. *)
Definition refFired (p : InfiniteScrollProps) (d : DOM) (s : ISRef.Store)
    (e : ref) (z : Z) : ISRef.Store :=
  let s1 := if isReverse p
            then ISRef.set_beforeSizeRef
                   (ISRef.mkBeforeSize (scrollHeight (node d e)) z) s
            else s in
  if loadMore p
  then ISRef.set_isLoadMoreRef true
         (ISRef.set_pageLoadedRef (ISRef.pageLoadedRef s + 1) s1)
  else s1.

(** The store of [IS.tsx] after its listener fired with scroll parent [pn]. *)
Definition letFired (p : InfiniteScrollProps) (d : DOM) (s : IS.Store) (pn : ref)
  : IS.Store :=
  let s1 := IS.set_beforeScrollTop (scrollTop (node d pn))
              (IS.set_beforeScrollHeight (scrollHeight (node d pn)) s) in
  if loadMore p
  then IS.set_isLoadMore true (IS.set_pageLoaded (IS.pageLoaded s + 1) s1)
  else s1.

(** The one call a firing listener makes, when there is a callback. *)
Definition loadCall (p : InfiniteScrollProps) (page : Z) : list Effect :=
  if loadMore p then [LoadMore (page + 1)] else [].

(** The store of the ref-based version once its [pageStart] effect has
    reset the counter and resolved the scroll container. *)
Definition refInitialised (p : InfiniteScrollProps) (d : DOM) (s : ISRef.Store)
  : ISRef.Store :=
  let s0 := ISRef.set_pageLoadedRef (ISRef.resetPage (pageStart p)) s in
  match getParentElement p d (ISRef.scrollComponentRef s) with
  | Some parentElement =>
      if negb (useWindow p)
      then ISRef.set_scrollContainerRef (Element parentElement) s0
      else s0
  | None => s0
  end.

(** The three registrations of an attach. *)
Definition listenersOn (t : EventTarget) : list Effect :=
  [AddEventListener t mousewheel; AddEventListener t scroll; AddEventListener t resize].

(** ** Reading listener changes, and runs with their logs *)

(** The three removals of the ref-based detach, in its order. *)
Definition removalsOn (t : EventTarget) : list Effect :=
  [RemoveEventListener t mousewheel; RemoveEventListener t scroll;
   RemoveEventListener t resize].

Definition isListenerRemoved (e : Effect) : bool :=
  match e with RemoveEventListener _ _ => true | _ => false end.

(** The registrations and the removals a log holds, in order. *)
Fixpoint addedListeners (l : list Effect) : list (EventTarget * EventType) :=
  match l with
  | [] => []
  | AddEventListener t ty :: l' => (t, ty) :: addedListeners l'
  | _ :: l' => addedListeners l'
  end.

Fixpoint removedListeners (l : list Effect) : list (EventTarget * EventType) :=
  match l with
  | [] => []
  | RemoveEventListener t ty :: l' => (t, ty) :: removedListeners l'
  | _ :: l' => removedListeners l'
  end.

(** The log of a run of the ref-based version (see [ISRef.run]). *)
Fixpoint refRunLog (fuel : nat) (es : list (InfiniteScrollProps * DOM * ISRef.Entry))
    (s : ISRef.Store) : list Effect :=
  match es with
  | [] => []
  | (p, d, e) :: es' =>
      log_of (ISRef.dispatch p d fuel e s)
      ++ refRunLog fuel es' (store_of (ISRef.dispatch p d fuel e s))
  end.

(** [n] consecutive page numbers from [start]. *)
Fixpoint pagesFrom (start : Z) (n : nat) : list Z :=
  match n with
  | O => []
  | S n' => start :: pagesFrom (start + 1) n'
  end.

(** ** [src/src/App.tsx]: the demo page around the widget *)

Record ListType := mkListType {
  id : string;
  title : string;
  desc : string;
  url : string;
  avatar : string;
  img : string;
  content : string
}.

(** A request to [/api/list]. *)
Inductive Request := GetList.

(** The first [App] of the file: [hasMoreItems] starts [true]; state
    updates queued in one handler apply in their order. *)
Module App.

Record State := mkState {
  listData : list ListType;
  pageCount : Z;
  hasMoreItems : bool
}.

Definition initial : State := mkState [] 0 true.

Definition setListData (l : list ListType) (st : State) : State :=
  mkState l (pageCount st) (hasMoreItems st).
Definition setPageCount (n : Z) (st : State) : State :=
  mkState (listData st) n (hasMoreItems st).
Definition setHasMoreItems (b : bool) (st : State) : State :=
  mkState (listData st) (pageCount st) b.

Definition initState (st : State) : State := setListData [] st.

Definition loadItems (page : Z) (st : State) : State * list Request :=
  let st1 := if page =? 5
             then setHasMoreItems false (setPageCount (-1) st)
             else st in
  (setHasMoreItems true st1, [GetList]).

(** The [then] of the request. *)
Definition onResponse (data : list ListType) (st : State) : State :=
  setListData (listData st ++ data) st.

(** The props of the [<IS>] element. *)
Definition widgetProps (st : State) : InfiniteScrollProps :=
  mkProps "div" (hasMoreItems st) true false true (pageCount st) 250 false true
          (Some "Spin"%string) None "List"%string.

Inductive Event :=
| Reload
| Load (page : Z)
| Response (data : list ListType).

Definition step (st : State) (e : Event) : State :=
  match e with
  | Reload => initState st
  | Load page => fst (loadItems page st)
  | Response data => onResponse data st
  end.

End App.

(** The second [App] of the file: [hasMoreItems] starts [false] and the
    mount effect sets it; page 5 flips [pageCount] and asks for nothing. *)
Module AppToggle.

Record State := mkState {
  listData : list ListType;
  pageCount : Z;
  hasMoreItems : bool
}.

Definition initial : State := mkState [] 0 false.

Definition setListData (l : list ListType) (st : State) : State :=
  mkState l (pageCount st) (hasMoreItems st).
Definition setPageCount (n : Z) (st : State) : State :=
  mkState (listData st) n (hasMoreItems st).
Definition setHasMoreItems (b : bool) (st : State) : State :=
  mkState (listData st) (pageCount st) b.

Definition initState (st : State) : State := setListData [] st.

(** [useEffect(() => { setHasMoreItems(true) }, [])] *)
Definition mountEffect (st : State) : State := setHasMoreItems true st.

Definition loadItems (page : Z) (st : State) : State * list Request :=
  if page =? 5
  then (setHasMoreItems false
          (setPageCount (if pageCount st =? -1 then 0 else -1) st), [])
  else (st, [GetList]).

Definition onResponse (data : list ListType) (st : State) : State :=
  setListData (listData st ++ data) st.

Definition widgetProps (st : State) : InfiniteScrollProps :=
  mkProps "div" (hasMoreItems st) true false true (pageCount st) 250 false true
          (Some "Spin"%string) None "List"%string.

End AppToggle.

(** ** More concrete data *)

Module MoreExamples.

(** The widget inside the pane, told by an override to watch the body. *)
Definition overridden : InfiniteScrollProps :=
  mkProps "div" true true false true 0 250 false false None (Some (Some 0%nat))
          "items"%string.

Definition quietStart : InfiniteScrollProps :=
  mkProps "div" true false false true 0 250 false true None None "items"%string.

Definition inPane : ISRef.Store :=
  ISRef.mkStore (Some 2%nat) false 0 (ISRef.mkBeforeSize 0 0) (Element 1%nat).

(** A scroller without an initial check, starting at a given page. *)
Definition quietAt (pageStart : Z) : InfiniteScrollProps :=
  mkProps "div" true false false true pageStart 250 false true None None "items"%string.

(** The grown page in a browser whose elements have no [scrollTo]. *)
Definition grownLegacy (y : Z) : DOM :=
  mkDOM (node (Examples.grown y)) (Some y) 800 y true false.

(** A reverse scroller inside the pane, and its store after a trigger at
    offset 40 with the element 1400 high. *)
Definition reversePane : InfiniteScrollProps :=
  mkProps "div" true true true true 0 250 false false None None "items"%string.

Definition pending : ISRef.Store :=
  ISRef.mkStore (Some 2%nat) true 1 (ISRef.mkBeforeSize 1400 40) (Element 1%nat).

End MoreExamples.

(** * Properties *)

(** ** The monad *)

Ltac run_monad :=
  unfold result_of, store_of, log_of, bind, ret, get, modify, emit, liftR in *;
  cbn [fst snd app] in *.

(** ** Geometry helpers *)

(** C9. For a null element the geometry helpers [calculateTopPosition] and
    [calculateOffset] return 0, whatever the fuel, the page and the scroll
    position: they do not raise. *)
Theorem geometry_of_null_is_zero :
  forall (fuel : nat) (d : DOM) (scrollTop : Z),
    calculateTopPosition fuel d None = Ok 0 /\
    calculateOffset fuel d None scrollTop = Ok 0.
Proof.
  intros fuel d y. split.
  - destruct fuel; reflexivity.
  - reflexivity.
Qed.

Lemma offsetChain_unique d el l1 :
  offsetChain d el l1 -> forall l2, offsetChain d el l2 -> l1 = l2.
Proof.
  induction 1 as [|r l H IH]; intros l2 H2; inversion H2; subst.
  - reflexivity.
  - f_equal. apply IH. assumption.
Qed.

Lemma calculateTopPosition_enough_fuel d el l :
  offsetChain d el l ->
  forall fuel, (length l <= fuel)%nat ->
    calculateTopPosition fuel d el = Ok (sumOffsetTop d l).
Proof.
  induction 1 as [|r l H IH]; intros fuel Hf.
  - destruct fuel; reflexivity.
  - destruct fuel as [|fuel]; simpl in Hf; [lia|].
    simpl. rewrite IH by lia. reflexivity.
Qed.

Lemma calculateTopPosition_short_fuel d el l :
  offsetChain d el l ->
  forall fuel, (fuel < length l)%nat ->
    calculateTopPosition fuel d el = Throw Diverges.
Proof.
  induction 1 as [|r l H IH]; intros fuel Hf; simpl in Hf.
  - lia.
  - destruct fuel as [|fuel]; [reflexivity|].
    simpl. rewrite IH by lia. reflexivity.
Qed.

(** X23. A result is only ever produced along a chain that ends in [null],
    no longer than the depth allowed, and it is the sum of [offsetTop] over
    that chain. *)
Lemma calculateTopPosition_Ok_chain d :
  forall fuel el z,
    calculateTopPosition fuel d el = Ok z ->
    exists l, offsetChain d el l /\ (length l <= fuel)%nat /\ z = sumOffsetTop d l.
Proof.
  induction fuel as [|fuel IH]; intros [r|] z H; simpl in H.
  - discriminate.
  - inversion H; subst. exists []. repeat split; [constructor | simpl; lia].
  - destruct (calculateTopPosition fuel d (offsetParent (node d r))) as [rest|e] eqn:E;
      simpl in H; [|discriminate].
    inversion H; subst. destruct (IH _ _ E) as (l & Hl & Hlen & Hz).
    exists (r :: l). repeat split.
    + constructor. assumption.
    + simpl. lia.
    + simpl. rewrite Hz. reflexivity.
  - inversion H; subst. exists []. repeat split; [constructor | simpl; lia].
Qed.

(** On a cyclic chain no amount of fuel is enough. *)
Lemma calculateTopPosition_knot :
  forall fuel r, calculateTopPosition fuel Examples.knot (Some r) = Throw Diverges.
Proof.
  induction fuel as [|fuel IH]; intros r; [reflexivity|].
  simpl. rewrite IH. reflexivity.
Qed.

(** C10. When the [offsetParent] chain of an element is finite (it reaches
    [null] after the nodes [l]), [calculateTopPosition] returns the sum of
    [offsetTop] over the chain as soon as the recursion may go as deep as the
    chain is long, and with any smaller depth it has not finished: the
    recursion follows the whole chain, with no cap of its own. *)
Theorem calculateTopPosition_finite_chain :
  forall (d : DOM) (el : option ref) (l : list ref),
    offsetChain d el l ->
    (forall fuel, (length l <= fuel)%nat ->
       calculateTopPosition fuel d el = Ok (sumOffsetTop d l)) /\
    (forall fuel, (fuel < length l)%nat ->
       calculateTopPosition fuel d el = Throw Diverges).
Proof.
  intros d el l H. split.
  - apply calculateTopPosition_enough_fuel. assumption.
  - apply calculateTopPosition_short_fuel. assumption.
Qed.

Lemma items_chain y b :
  offsetChain (Examples.page y b) (Some 2%nat) [2%nat; 1%nat; 0%nat].
Proof. repeat constructor. Qed.

Lemma calculateTopPosition_finite_chain_witness :
  calculateTopPosition 3 (Examples.page 0 true) (Some 2%nat) = Ok 120 /\
  calculateTopPosition 2 (Examples.page 0 true) (Some 2%nat) = Throw Diverges.
Proof.
  destruct (calculateTopPosition_finite_chain (Examples.page 0 true) (Some 2%nat)
              [2%nat; 1%nat; 0%nat] (items_chain 0 true)) as [Hok Hshort].
  split.
  - apply (Hok 3%nat). simpl. lia.
  - apply (Hshort 2%nat). simpl. lia.
Defined.

(** C5 (as amended). In forward mode on the window, for an element whose
    [offsetParent] chain is finite, the computed offset is the sum of
    [offsetTop] over the chain, plus the element's [offsetHeight] (not its
    scroll height), minus the window scroll Y, minus the window inner
    height; in both versions. *)
Theorem window_forward_offset :
  forall (p : InfiniteScrollProps) (d : DOM) (fuel : nat) (e : ref) (l : list ref)
         (y : Z) (parent : option ref),
    useWindow p = true ->
    isReverse p = false ->
    offsetChain d (Some e) l ->
    (length l <= fuel)%nat ->
    pageYOffset d = Some y ->
    IS.scrollOffset p d fuel (Some e) parent
      = Ok (sumOffsetTop d l + offsetHeight (node d e) - y - innerHeight d) /\
    ISRef.scrollOffset p d fuel (Some e) Window
      = Ok (Some (sumOffsetTop d l + offsetHeight (node d e) - y - innerHeight d)).
Proof.
  intros p d fuel e l y parent Hw Hr Hc Hf Hy.
  unfold IS.scrollOffset, ISRef.scrollOffset, calculateOffset, windowScrollTop.
  rewrite Hw, Hr, Hy.
  rewrite (calculateTopPosition_enough_fuel d (Some e) l Hc fuel Hf).
  unfold rbind. split; [f_equal | do 2 f_equal]; lia.
Qed.

Lemma window_forward_offset_witness :
  IS.scrollOffset Examples.scroller (Examples.page 70 true) 3 (Some 2%nat) (Some 1%nat)
    = Ok 250 /\
  ISRef.scrollOffset Examples.scroller (Examples.page 70 true) 3 (Some 2%nat) Window
    = Ok (Some 250).
Proof.
  apply (window_forward_offset Examples.scroller (Examples.page 70 true) 3 2%nat
           [2%nat; 1%nat; 0%nat] 70 (Some 1%nat)).
  - reflexivity.
  - reflexivity.
  - apply items_chain.
  - simpl. lia.
  - reflexivity.
Defined.

(** C5, as first stated, fails: on a page where the element's scroll height
    (1400) differs from its [offsetHeight] (1000), neither version computes
    the formula with the scroll height. *)
Lemma window_offset_not_scroll_height :
  IS.scrollOffset Examples.scroller (Examples.page 0 true) 3 (Some 2%nat) (Some 1%nat)
    <> Ok (specWindowOffset (Examples.page 0 true) [2%nat; 1%nat; 0%nat] 2%nat 0) /\
  ISRef.scrollOffset Examples.scroller (Examples.page 0 true) 3 (Some 2%nat) Window
    <> Ok (Some (specWindowOffset (Examples.page 0 true) [2%nat; 1%nat; 0%nat] 2%nat 0)).
Proof. split; vm_compute; discriminate. Qed.

(** C6 (as amended). In forward mode inside a scrollable parent, the
    computed offset is the [scrollHeight] of the widget's own element minus
    the [scrollTop] and the [clientHeight] of the scroll parent; in both
    versions. *)
Theorem container_forward_offset :
  forall (p : InfiniteScrollProps) (d : DOM) (fuel : nat) (e c : ref),
    useWindow p = false ->
    isReverse p = false ->
    getParentElement p d (Some e) = Some c ->
    IS.scrollOffset p d fuel (Some e) (getParentElement p d (Some e))
      = Ok (scrollHeight (node d e) - scrollTop (node d c) - clientHeight (node d c)) /\
    ISRef.scrollOffset p d fuel (Some e) (Element c)
      = Ok (Some (scrollHeight (node d e) - scrollTop (node d c)
                  - clientHeight (node d c))).
Proof.
  intros p d fuel e c Hw Hr Hp.
  unfold IS.scrollOffset, ISRef.scrollOffset.
  rewrite Hw, Hr, Hp. simpl. split; reflexivity.
Qed.

Lemma container_forward_offset_witness :
  IS.scrollOffset Examples.paneScroller (Examples.page 0 true) 0 (Some 2%nat)
      (getParentElement Examples.paneScroller (Examples.page 0 true) (Some 2%nat))
    = Ok 600 /\
  ISRef.scrollOffset Examples.paneScroller (Examples.page 0 true) 0 (Some 2%nat)
      (Element 1%nat)
    = Ok (Some 600).
Proof.
  apply (container_forward_offset Examples.paneScroller (Examples.page 0 true) 0
           2%nat 1%nat); reflexivity.
Defined.

(** C6, as first stated, fails: the pane's own [scrollHeight] is 1200 while
    the element inside it has 1400, and the code reads the latter. *)
Lemma container_offset_not_of_one_element :
  IS.scrollOffset Examples.paneScroller (Examples.page 0 true) 0 (Some 2%nat) (Some 1%nat)
    <> Ok (specContainerOffset (Examples.page 0 true) 1%nat) /\
  ISRef.scrollOffset Examples.paneScroller (Examples.page 0 true) 0 (Some 2%nat)
      (Element 1%nat)
    <> Ok (Some (specContainerOffset (Examples.page 0 true) 1%nat)).
Proof. split; vm_compute; discriminate. Qed.

(** ** The wheel listener *)

(** C8 (as amended). The wheel listener calls [preventDefault] exactly when
    the wheel delta [deltaY] equals 1 and passive listeners are not
    supported; it does nothing else, and nothing at all where passive
    listeners are supported. *)
Theorem mousewheelListener_prevents_exactly :
  forall (S : Type) (d : DOM) (deltaY : Z) (s : S),
    result_of (mousewheelListener d deltaY s) = Ok tt /\
    store_of (mousewheelListener d deltaY s) = s /\
    (log_of (mousewheelListener d deltaY s) = [PreventDefault] \/
     log_of (mousewheelListener d deltaY s) = []) /\
    (In PreventDefault (log_of (mousewheelListener d deltaY s))
       <-> deltaY = 1 /\ isPassiveSupported d = false) /\
    (isPassiveSupported d = true -> log_of (mousewheelListener d deltaY s) = []).
Proof.
  intros S d deltaY s. unfold mousewheelListener.
  destruct (Z.eqb_spec deltaY 1) as [E|E];
    destruct (isPassiveSupported d); run_monad; cbn [andb negb fst snd];
    simpl; intuition (try discriminate; try congruence).
Qed.

(** C8, as first stated, fails: a wheel event scrolling forward by 100 in
    a browser without passive listeners is not prevented. *)
Lemma mousewheel_forward_not_prevented :
  ~ (In PreventDefault
        (log_of (mousewheelListener (Examples.page 0 false) 100 Examples.fresh))
     <-> isPassiveSupported (Examples.page 0 false) = false /\
         specForwardDelta 100 = true).
Proof.
  intros [_ H]. assert (Hin : In PreventDefault []) by (apply H; split; reflexivity).
  exact Hin.
Qed.

(** ** The scroll listener *)

Section RefListener.

Variables (p : InfiniteScrollProps) (d : DOM) (fuel : nat) (s : ISRef.Store).

Lemma ref_scrollListener_throws x :
  ISRef.scrollOffset p d fuel (ISRef.scrollComponentRef s) (ISRef.scrollContainerRef s)
    = Throw x ->
  ISRef.scrollListener p d fuel s = (Throw x, s, []).
Proof.
  intros H. unfold ISRef.scrollListener. run_monad. rewrite H. reflexivity.
Qed.

Lemma ref_scrollListener_quiet o :
  ISRef.scrollOffset p d fuel (ISRef.scrollComponentRef s) (ISRef.scrollContainerRef s)
    = Ok o ->
  (forall z, o = Some z ->
     (z <=? threshold p) && visible d (ISRef.scrollComponentRef s) = false) ->
  ISRef.scrollListener p d fuel s = (Ok tt, s, []).
Proof.
  intros H Hq. unfold ISRef.scrollListener. run_monad.
  rewrite H. destruct o as [z|]; [|reflexivity].
  rewrite (Hq z eq_refl). reflexivity.
Qed.

Lemma ref_scrollListener_fires e z :
  ISRef.scrollOffset p d fuel (ISRef.scrollComponentRef s) (ISRef.scrollContainerRef s)
    = Ok (Some z) ->
  ISRef.scrollComponentRef s = Some e ->
  z <= threshold p ->
  visible d (ISRef.scrollComponentRef s) = true ->
  ISRef.scrollListener p d fuel s
    = (Ok tt, refFired p d s e z, loadCall p (ISRef.pageLoadedRef s)).
Proof.
  intros H He Hz Hv. unfold ISRef.scrollListener, refFired, loadCall. run_monad.
  rewrite H, Hv. apply Z.leb_le in Hz. rewrite Hz. cbn [andb]. rewrite He.
  destruct (isReverse p), (loadMore p); reflexivity.
Qed.

End RefListener.

Section LetListener.

Variables (p : InfiniteScrollProps) (d : DOM) (fuel : nat) (s : IS.Store).

Lemma let_scrollListener_throws x :
  IS.scrollOffset p d fuel (IS.scrollComponentRef s)
    (getParentElement p d (IS.scrollComponentRef s)) = Throw x ->
  IS.scrollListener p d fuel s = (Throw x, s, []).
Proof.
  intros H. unfold IS.scrollListener. run_monad. rewrite H. reflexivity.
Qed.

Lemma let_scrollListener_quiet z :
  IS.scrollOffset p d fuel (IS.scrollComponentRef s)
    (getParentElement p d (IS.scrollComponentRef s)) = Ok z ->
  (z <? threshold p) && visible d (IS.scrollComponentRef s) = false ->
  IS.scrollListener p d fuel s = (Ok tt, s, []).
Proof.
  intros H Hq. unfold IS.scrollListener. run_monad. rewrite H, Hq. reflexivity.
Qed.

Lemma let_scrollListener_fires z pn :
  IS.scrollOffset p d fuel (IS.scrollComponentRef s)
    (getParentElement p d (IS.scrollComponentRef s)) = Ok z ->
  z < threshold p ->
  visible d (IS.scrollComponentRef s) = true ->
  getParentElement p d (IS.scrollComponentRef s) = Some pn ->
  IS.scrollListener p d fuel s
    = (Ok tt, letFired p d s pn,
       RemoveEventListener (IS.scrollTarget p (Some pn)) scroll
       :: RemoveEventListener (IS.scrollTarget p (Some pn)) resize
       :: loadCall p (IS.pageLoaded s)).
Proof.
  intros H Hz Hv Hp. unfold IS.scrollListener, IS.detachScrollListener, letFired, loadCall.
  run_monad. rewrite H, Hv. apply Z.ltb_lt in Hz. rewrite Hz. cbn [andb].
  rewrite Hp. cbn [deref]. destruct (loadMore p); reflexivity.
Qed.

Lemma let_scrollListener_orphan z :
  IS.scrollOffset p d fuel (IS.scrollComponentRef s)
    (getParentElement p d (IS.scrollComponentRef s)) = Ok z ->
  z < threshold p ->
  visible d (IS.scrollComponentRef s) = true ->
  getParentElement p d (IS.scrollComponentRef s) = None ->
  IS.scrollListener p d fuel s
    = (Throw TypeError, s,
       [RemoveEventListener Window scroll; RemoveEventListener Window resize]).
Proof.
  intros H Hz Hv Hp. unfold IS.scrollListener, IS.detachScrollListener.
  run_monad. rewrite H, Hv. apply Z.ltb_lt in Hz. rewrite Hz. cbn [andb].
  rewrite Hp. reflexivity.
Qed.

End LetListener.

Lemma loadCall_supplied p page :
  loadMore p = true -> loadCall p page = [LoadMore (page + 1)].
Proof. intros H. unfold loadCall. rewrite H. reflexivity. Qed.

(** C1 (as amended). With a [loadMore] callback supplied, a run of the
    scroll listener that computed the offset calls the callback exactly when
    the element is visible and the offset passes the threshold test of the
    version at hand: [offset <= threshold] in the ref-based version,
    [offset < threshold] in [IS.tsx] (where a visible element is taken to
    have a scroll parent).  In every other case nothing is called. *)
Theorem load_trigger_condition :
  forall (p : InfiniteScrollProps) (d : DOM) (fuel : nat),
    loadMore p = true ->
    (forall (s : ISRef.Store) (o : option Z),
       ISRef.scrollOffset p d fuel (ISRef.scrollComponentRef s)
         (ISRef.scrollContainerRef s) = Ok o ->
       result_of (ISRef.scrollListener p d fuel s) = Ok tt /\
       (loadMoreCalled (log_of (ISRef.scrollListener p d fuel s)) = true
        <-> (exists z, o = Some z /\ z <= threshold p) /\
            visible d (ISRef.scrollComponentRef s) = true)) /\
    (forall (s : IS.Store) (z : Z),
       IS.scrollOffset p d fuel (IS.scrollComponentRef s)
         (getParentElement p d (IS.scrollComponentRef s)) = Ok z ->
       (visible d (IS.scrollComponentRef s) = true ->
        getParentElement p d (IS.scrollComponentRef s) <> None) ->
       result_of (IS.scrollListener p d fuel s) = Ok tt /\
       (loadMoreCalled (log_of (IS.scrollListener p d fuel s)) = true
        <-> z < threshold p /\ visible d (IS.scrollComponentRef s) = true)).
Proof.
  intros p d fuel Hl. split.
  - intros s o Ho.
    destruct o as [z|].
    + destruct ((z <=? threshold p) && visible d (ISRef.scrollComponentRef s)) eqn:G.
      * apply andb_true_iff in G. destruct G as [Hz Hv]. apply Z.leb_le in Hz.
        assert (He : exists e, ISRef.scrollComponentRef s = Some e).
        { unfold visible in Hv. destruct (ISRef.scrollComponentRef s) as [e|];
            [eauto | discriminate]. }
        destruct He as [e He].
        rewrite (ref_scrollListener_fires p d fuel s e z Ho He Hz Hv).
        rewrite (loadCall_supplied p _ Hl). unfold result_of, log_of. simpl.
        split; [reflexivity|]. split; [|reflexivity].
        intros _. split; [exists z; auto | assumption].
      * rewrite (ref_scrollListener_quiet p d fuel s (Some z) Ho).
        2:{ intros z' E. inversion E; subst. assumption. }
        unfold result_of, log_of. simpl. split; [reflexivity|].
        split; [discriminate|].
        intros [[z' [E Hz]] Hv]. inversion E; subst z'.
        apply Z.leb_le in Hz. rewrite Hz, Hv in G. discriminate.
    + rewrite (ref_scrollListener_quiet p d fuel s None Ho) by (intros; discriminate).
      unfold result_of, log_of. simpl. split; [reflexivity|].
      split; [discriminate|]. intros [[z [E _]] _]. discriminate.
  - intros s z Ho Hdom.
    destruct ((z <? threshold p) && visible d (IS.scrollComponentRef s)) eqn:G.
    + apply andb_true_iff in G. destruct G as [Hz Hv]. apply Z.ltb_lt in Hz.
      destruct (getParentElement p d (IS.scrollComponentRef s)) as [pn|] eqn:Hp.
      * rewrite (let_scrollListener_fires p d fuel s z pn); try assumption.
        2:{ rewrite Hp. assumption. }
        rewrite (loadCall_supplied p _ Hl). unfold result_of, log_of. simpl.
        split; [reflexivity|]. split; auto.
      * exfalso. apply (Hdom Hv). reflexivity.
    + rewrite (let_scrollListener_quiet p d fuel s z Ho G).
      unfold result_of, log_of. simpl. split; [reflexivity|].
      split; [discriminate|]. intros [Hz Hv]. apply Z.ltb_lt in Hz.
      rewrite Hz, Hv in G. discriminate.
Qed.

Lemma load_trigger_condition_witness :
  (loadMoreCalled
     (log_of (ISRef.scrollListener Examples.scroller (Examples.page 70 true) 3
                (ISRef.initialStore (Some 2%nat)))) = true
   <-> (exists z, Some 250 = Some z /\ z <= 250) /\
       visible (Examples.page 70 true) (Some 2%nat) = true) /\
  (loadMoreCalled
     (log_of (IS.scrollListener Examples.scroller (Examples.page 71 true) 3
                Examples.fresh)) = true
   <-> 249 < 250 /\ visible (Examples.page 71 true) (Some 2%nat) = true).
Proof.
  split.
  - destruct (load_trigger_condition Examples.scroller (Examples.page 70 true) 3
                eq_refl) as [Href _].
    exact (proj2 (Href (ISRef.initialStore (Some 2%nat)) (Some 250) eq_refl)).
  - destruct (load_trigger_condition Examples.scroller (Examples.page 71 true) 3
                eq_refl) as [_ Hlet].
    refine (proj2 (Hlet Examples.fresh 249 eq_refl _)).
    intros _. simpl. discriminate.
Defined.

(** C1, as first stated, fails on [IS.tsx]: with the offset equal to the
    threshold (250) and the element visible, the callback is not called. *)
Lemma strict_threshold_in_let_version :
  IS.scrollOffset Examples.scroller (Examples.page 70 true) 3 (Some 2%nat)
    (getParentElement Examples.scroller (Examples.page 70 true) (Some 2%nat)) = Ok 250 /\
  ~ (loadMoreCalled
       (log_of (IS.scrollListener Examples.scroller (Examples.page 70 true) 3
                  Examples.fresh)) = true
     <-> 250 <= threshold Examples.scroller /\
         visible (Examples.page 70 true) (Some 2%nat) = true).
Proof.
  split; [reflexivity|].
  intros [_ H]. assert (E : false = true).
  { apply H. split; [simpl; lia | reflexivity]. }
  discriminate.
Qed.

(** The scenario of the specification on the ref-based version: offset 300
    against threshold 250 calls nothing; offset 200 calls [loadMore(1)]
    once, and a second event at the same offset calls [loadMore(2)]. *)
Example scenario_ref :
  log_of (ISRef.scrollListener Examples.scroller (Examples.page 20 true) 3
            (ISRef.initialStore (Some 2%nat))) = [] /\
  log_of (ISRef.scrollListener Examples.scroller (Examples.page 120 true) 3
            (ISRef.initialStore (Some 2%nat))) = [LoadMore 1] /\
  log_of (ISRef.scrollListener Examples.scroller (Examples.page 120 true) 3
            (store_of (ISRef.scrollListener Examples.scroller (Examples.page 120 true) 3
                         (ISRef.initialStore (Some 2%nat))))) = [LoadMore 2].
Proof. repeat split. Qed.

(** Every run of the ref-based listener ends in one of three ways. *)
Lemma ref_scrollListener_cases p d fuel s :
  (exists x, ISRef.scrollListener p d fuel s = (Throw x, s, [])) \/
  ISRef.scrollListener p d fuel s = (Ok tt, s, []) \/
  (exists e z,
     ISRef.scrollComponentRef s = Some e /\
     ISRef.scrollListener p d fuel s
       = (Ok tt, refFired p d s e z, loadCall p (ISRef.pageLoadedRef s))).
Proof.
  destruct (ISRef.scrollOffset p d fuel (ISRef.scrollComponentRef s)
              (ISRef.scrollContainerRef s)) as [[z|]|x] eqn:Ho.
  - destruct ((z <=? threshold p) && visible d (ISRef.scrollComponentRef s)) eqn:G.
    + apply andb_true_iff in G. destruct G as [Hz Hv]. apply Z.leb_le in Hz.
      destruct (ISRef.scrollComponentRef s) as [e|] eqn:He; [|discriminate].
      right; right. exists e, z. split; [reflexivity|].
      apply ref_scrollListener_fires; rewrite ?He; auto.
    + right; left. apply (ref_scrollListener_quiet p d fuel s (Some z) Ho).
      intros z' E. inversion E; subst. assumption.
  - right; left. apply (ref_scrollListener_quiet p d fuel s None Ho).
    intros; discriminate.
  - left. exists x. apply ref_scrollListener_throws. assumption.
Qed.

(** Every run of the listener of [IS.tsx] ends in one of four ways. *)
Lemma let_scrollListener_cases p d fuel s :
  (exists x, IS.scrollListener p d fuel s = (Throw x, s, [])) \/
  IS.scrollListener p d fuel s = (Ok tt, s, []) \/
  IS.scrollListener p d fuel s
    = (Throw TypeError, s,
       [RemoveEventListener Window scroll; RemoveEventListener Window resize]) \/
  (exists pn,
     IS.scrollListener p d fuel s
       = (Ok tt, letFired p d s pn,
          RemoveEventListener (IS.scrollTarget p (Some pn)) scroll
          :: RemoveEventListener (IS.scrollTarget p (Some pn)) resize
          :: loadCall p (IS.pageLoaded s))).
Proof.
  destruct (IS.scrollOffset p d fuel (IS.scrollComponentRef s)
              (getParentElement p d (IS.scrollComponentRef s))) as [z|x] eqn:Ho.
  - destruct ((z <? threshold p) && visible d (IS.scrollComponentRef s)) eqn:G.
    + apply andb_true_iff in G. destruct G as [Hz Hv]. apply Z.ltb_lt in Hz.
      destruct (getParentElement p d (IS.scrollComponentRef s)) as [pn|] eqn:Hp.
      * right; right; right. exists pn.
        apply (let_scrollListener_fires p d fuel s z pn); rewrite ?Hp; auto.
      * right; right; left.
        apply (let_scrollListener_orphan p d fuel s z); rewrite ?Hp; auto.
    + right; left. apply (let_scrollListener_quiet p d fuel s z Ho G).
  - left. exists x. apply let_scrollListener_throws. assumption.
Qed.

Lemma refFired_page p d s e z :
  ISRef.pageLoadedRef (refFired p d s e z)
    = ISRef.pageLoadedRef s + Z.of_nat (length (loadMorePages (loadCall p (ISRef.pageLoadedRef s)))).
Proof.
  unfold refFired, loadCall. destruct (isReverse p), (loadMore p); simpl; lia.
Qed.

Lemma letFired_page p d s pn :
  IS.pageLoaded (letFired p d s pn)
    = IS.pageLoaded s + Z.of_nat (length (loadMorePages (loadCall p (IS.pageLoaded s)))).
Proof.
  unfold letFired, loadCall. destruct (loadMore p); simpl; lia.
Qed.

Lemma loadCall_pages p page :
  loadMorePages (loadCall p page) = [] \/ loadMorePages (loadCall p page) = [page + 1].
Proof. unfold loadCall. destruct (loadMore p); simpl; auto. Qed.

(** One run of either listener: the counter grows by the number of calls
    made, and that is no call or the single call [loadMore(counter + 1)]. *)
Lemma ref_scrollListener_counter p d fuel s :
  let o := ISRef.scrollListener p d fuel s in
  ISRef.pageLoadedRef (store_of o)
    = ISRef.pageLoadedRef s + Z.of_nat (length (loadMorePages (log_of o))) /\
  (loadMorePages (log_of o) = [] \/
   loadMorePages (log_of o) = [ISRef.pageLoadedRef s + 1]).
Proof.
  cbv zeta.
  destruct (ref_scrollListener_cases p d fuel s) as [[x H]|[H|(e & z & _ & H)]];
    rewrite H; unfold store_of, log_of; cbn [fst snd].
  - simpl. split; [lia | auto].
  - simpl. split; [lia | auto].
  - split; [apply refFired_page | apply loadCall_pages].
Qed.

Lemma let_scrollListener_counter p d fuel s :
  let o := IS.scrollListener p d fuel s in
  IS.pageLoaded (store_of o)
    = IS.pageLoaded s + Z.of_nat (length (loadMorePages (log_of o))) /\
  (loadMorePages (log_of o) = [] \/
   loadMorePages (log_of o) = [IS.pageLoaded s + 1]).
Proof.
  cbv zeta.
  destruct (let_scrollListener_cases p d fuel s) as [[x H]|[H|[H|[pn H]]]];
    rewrite H; unfold store_of, log_of; cbn [fst snd].
  - simpl. split; [lia | auto].
  - simpl. split; [lia | auto].
  - simpl. split; [lia | auto].
  - cbn [loadMorePages]. split; [apply letFired_page | apply loadCall_pages].
Qed.

(** X22. A firing event with a callback: exactly one call, with the counter
    one above its prior value; in both versions. *)
Lemma trigger_increments_by_one p d fuel :
  loadMore p = true ->
  (forall (s : ISRef.Store) e z,
     ISRef.scrollOffset p d fuel (ISRef.scrollComponentRef s)
       (ISRef.scrollContainerRef s) = Ok (Some z) ->
     ISRef.scrollComponentRef s = Some e ->
     z <= threshold p ->
     visible d (ISRef.scrollComponentRef s) = true ->
     ISRef.pageLoadedRef (store_of (ISRef.scrollListener p d fuel s))
       = ISRef.pageLoadedRef s + 1 /\
     loadMorePages (log_of (ISRef.scrollListener p d fuel s))
       = [ISRef.pageLoadedRef s + 1]) /\
  (forall (s : IS.Store) z pn,
     IS.scrollOffset p d fuel (IS.scrollComponentRef s)
       (getParentElement p d (IS.scrollComponentRef s)) = Ok z ->
     z < threshold p ->
     visible d (IS.scrollComponentRef s) = true ->
     getParentElement p d (IS.scrollComponentRef s) = Some pn ->
     IS.pageLoaded (store_of (IS.scrollListener p d fuel s)) = IS.pageLoaded s + 1 /\
     loadMorePages (log_of (IS.scrollListener p d fuel s)) = [IS.pageLoaded s + 1]).
Proof.
  intros Hl. split.
  - intros s e z Ho He Hz Hv.
    rewrite (ref_scrollListener_fires p d fuel s e z Ho He Hz Hv).
    unfold store_of, log_of, refFired. rewrite (loadCall_supplied p _ Hl), Hl.
    destruct (isReverse p); split; reflexivity.
  - intros s z pn Ho Hz Hv Hp.
    rewrite (let_scrollListener_fires p d fuel s z pn Ho Hz Hv Hp).
    unfold store_of, log_of, letFired. rewrite (loadCall_supplied p _ Hl), Hl.
    split; reflexivity.
Qed.

(** In the ref-based version nothing but the [pageStart] effect lowers the
    counter: not a scroll, resize or wheel event, a render or a cleanup. *)
Lemma ref_dispatch_monotone p d fuel e s :
  ISRef.pageLoadedRef s <= ISRef.pageLoadedRef (store_of (ISRef.dispatch p d fuel e s)).
Proof.
  destruct e; cbn [ISRef.dispatch].
  - destruct (ref_scrollListener_counter p d fuel s) as [H _]. rewrite H. lia.
  - destruct (ref_scrollListener_counter p d fuel s) as [H _]. rewrite H. lia.
  - unfold mousewheelListener.
    destruct ((deltaY =? 1) && negb (isPassiveSupported d)); run_monad; lia.
  - unfold ISRef.render, ISRef.effectEveryRender. run_monad.
    destruct (isReverse p && ISRef.isLoadMoreRef s); cbn [fst snd]; [|lia].
    destruct (ISRef.scrollComponentRef s); cbn [deref fst snd]; [|lia].
    destruct (ISRef.scrollToIsFunction d (ISRef.scrollContainerRef s));
      cbn [fst snd ISRef.pageLoadedRef ISRef.set_isLoadMoreRef]; lia.
  - unfold ISRef.cleanup, ISRef.detachScrollListener. run_monad. lia.
Qed.

Lemma ref_run_monotone fuel es :
  forall s, ISRef.pageLoadedRef s <= ISRef.pageLoadedRef (ISRef.run fuel es s).
Proof.
  induction es as [|[[p d] e] es IH]; intros s; cbn [ISRef.run].
  - lia.
  - etransitivity; [apply (ref_dispatch_monotone p d fuel e s) | apply IH].
Qed.

(** C3, on [IS.tsx]. The component mounts at [pageStart = 5] with its
    element within the threshold: the two effects of the mount call
    [loadMore(6)] and [loadMore(7)].  A render with the very same props then
    declares the counter afresh, and the next call is [loadMore(1)]: the
    counter fell from 7 to 1 although [pageStart] never changed. *)
Theorem let_counter_restarts_on_render :
  let d := Examples.page 120 true in
  let mounted := IS.mount Examples.fromPage5 d 3 Examples.fresh in
  let rendered := IS.update Examples.fromPage5 Examples.fromPage5 d 3 (store_of mounted) in
  result_of mounted = Ok tt /\
  loadMorePages (log_of mounted) = [6; 7] /\
  IS.pageLoaded (store_of mounted) = 7 /\
  result_of rendered = Ok tt /\
  loadMorePages (log_of rendered) = [1] /\
  IS.pageLoaded (store_of rendered) = 1.
Proof. vm_compute. repeat split. Qed.

(** The same run on the ref-based version keeps counting. *)
Example ref_counter_survives_render :
  let d := Examples.page 120 true in
  let mounted := ISRef.mount Examples.fromPage5 d 3 (ISRef.initialStore (Some 2%nat)) in
  let rendered := ISRef.update Examples.fromPage5 Examples.fromPage5 d 3 (store_of mounted) in
  loadMorePages (log_of mounted) = [6] /\
  ISRef.pageLoadedRef (store_of rendered) = 6 /\
  loadMorePages
    (log_of (ISRef.scrollListener Examples.fromPage5 d 3 (store_of rendered))) = [7].
Proof. vm_compute. repeat split. Qed.

(** ** Scroll compensation in reverse mode *)

Lemma letFired_flag p d s pn :
  IS.isLoadMore s = true -> IS.isLoadMore (letFired p d s pn) = true.
Proof. intros H. unfold letFired. destruct (loadMore p); simpl; auto. Qed.

Lemma loadCall_no_scroll_write p page : existsb isScrollWrite (loadCall p page) = false.
Proof. unfold loadCall. destruct (loadMore p); reflexivity. Qed.

(** [IS.tsx] never writes a scroll position and never clears its flag when
    it attaches its listeners. *)
Lemma let_attach_no_compensation p d fuel s :
  existsb isScrollWrite (log_of (IS.attachScrollListener p d fuel s)) = false /\
  (IS.isLoadMore s = true ->
   IS.isLoadMore (store_of (IS.attachScrollListener p d fuel s)) = true).
Proof.
  unfold IS.attachScrollListener. run_monad.
  destruct (negb (hasMore p)
            || negb (isSome (getParentElement p d (IS.scrollComponentRef s))));
    cbn [fst snd]; [split; auto|].
  destruct (initialLoad p); cbn [fst snd app]; [|split; auto].
  destruct (let_scrollListener_cases p d fuel s) as [[x H]|[H|[H|[pn H]]]];
    rewrite H; cbn [fst snd app existsb isScrollWrite orb]; try (split; auto).
  - apply loadCall_no_scroll_write.
  - apply letFired_flag.
Qed.

(** C4 (as amended). In reverse mode the ref-based version, in the effect
    that follows every render, finding the pending flag set, sets the scroll
    position of the scroll container to the element's new scroll height
    minus the recorded scroll height plus the recorded offset: by the one
    call [scrollTo(0, y)] where the container has a [scrollTo] (the window
    always, an element where the browser gives elements one), and by the one
    assignment [scrollTop = y] where it has none; then it clears the flag.
    A firing listener with a callback sets the flag and records the
    element's scroll height and the offset just computed.  [IS.tsx] has this
    adjustment commented out: its effect writes no scroll position and does
    not clear the flag. *)
Theorem reverse_compensation :
  forall (p : InfiniteScrollProps) (d : DOM),
    isReverse p = true ->
    (forall (s : ISRef.Store) (e : ref),
       ISRef.scrollComponentRef s = Some e ->
       ISRef.isLoadMoreRef s = true ->
       let y := scrollHeight (node d e)
                - ISRef.sizeScrollHeight (ISRef.beforeSizeRef s)
                + ISRef.sizeScrollTop (ISRef.beforeSizeRef s) in
       let o := ISRef.effectEveryRender p d s in
       result_of o = Ok tt /\
       store_of o = ISRef.set_isLoadMoreRef false s /\
       (ISRef.scrollToIsFunction d (ISRef.scrollContainerRef s) = true ->
        log_of o = [ScrollTo (ISRef.scrollContainerRef s) 0 y]) /\
       (ISRef.scrollToIsFunction d (ISRef.scrollContainerRef s) = false ->
        log_of o = [SetScrollTop (ISRef.scrollContainerRef s) y]) /\
       (ISRef.scrollContainerRef s = Window ->
        log_of o = [ScrollTo Window 0 y]) /\
       (forall c, ISRef.scrollContainerRef s = Element c ->
          log_of o = [if elementScrollTo d then ScrollTo (Element c) 0 y
                      else SetScrollTop (Element c) y])) /\
    (forall (fuel : nat) (s : ISRef.Store) (e : ref) (z : Z),
       loadMore p = true ->
       ISRef.scrollComponentRef s = Some e ->
       ISRef.scrollOffset p d fuel (ISRef.scrollComponentRef s)
         (ISRef.scrollContainerRef s) = Ok (Some z) ->
       z <= threshold p ->
       visible d (ISRef.scrollComponentRef s) = true ->
       let s1 := store_of (ISRef.scrollListener p d fuel s) in
       ISRef.isLoadMoreRef s1 = true /\
       ISRef.beforeSizeRef s1 = ISRef.mkBeforeSize (scrollHeight (node d e)) z /\
       ISRef.scrollComponentRef s1 = Some e /\
       ISRef.scrollContainerRef s1 = ISRef.scrollContainerRef s) /\
    (forall (fuel : nat) (s : IS.Store),
       existsb isScrollWrite (log_of (IS.effectEveryRender p d fuel s)) = false /\
       (IS.isLoadMore s = true ->
        IS.isLoadMore (store_of (IS.effectEveryRender p d fuel s)) = true)).
Proof.
  intros p d Hrev. split; [|split].
  - intros s e He Hflag. cbv zeta. unfold ISRef.effectEveryRender. run_monad.
    rewrite Hrev, Hflag, He. cbn [andb deref fst snd].
    unfold ISRef.scrollToIsFunction.
    destruct (ISRef.scrollContainerRef s) as [|c0]; [|destruct (elementScrollTo d)];
      cbn [fst snd app]; repeat split; try reflexivity;
      try (intros; discriminate); intros c Hc; inversion Hc; reflexivity.
  - intros fuel s e z Hl He Ho Hz Hv. cbv zeta.
    rewrite (ref_scrollListener_fires p d fuel s e z Ho He Hz Hv).
    unfold store_of, refFired. rewrite Hrev, Hl. cbn. auto.
  - intros fuel s. unfold IS.effectEveryRender. apply let_attach_no_compensation.
Qed.

Lemma reverse_compensation_witness :
  (let s1 := store_of (ISRef.scrollListener Examples.reverseScroller
                         (Examples.page 100 true) 3 (ISRef.initialStore (Some 2%nat))) in
   let o := ISRef.effectEveryRender Examples.reverseScroller (Examples.grown 100) s1 in
   result_of o = Ok tt /\
   store_of o = ISRef.set_isLoadMoreRef false s1 /\
   log_of o = [ScrollTo Window 0 (2000 - 1400 + 100)]) /\
  (let o := ISRef.effectEveryRender MoreExamples.reversePane
              (MoreExamples.grownLegacy 0) MoreExamples.pending in
   result_of o = Ok tt /\
   store_of o = ISRef.set_isLoadMoreRef false MoreExamples.pending /\
   log_of o = [SetScrollTop (Element 1%nat) (2000 - 1400 + 40)]).
Proof.
  split.
  - destruct (proj1 (reverse_compensation Examples.reverseScroller (Examples.grown 100)
                       eq_refl)
                (store_of (ISRef.scrollListener Examples.reverseScroller
                             (Examples.page 100 true) 3 (ISRef.initialStore (Some 2%nat))))
                2%nat eq_refl eq_refl) as (Hr & Hs & Hto & _).
    exact (conj Hr (conj Hs (Hto eq_refl))).
  - destruct (proj1 (reverse_compensation MoreExamples.reversePane
                       (MoreExamples.grownLegacy 0) eq_refl)
                MoreExamples.pending 2%nat eq_refl eq_refl) as (Hr & Hs & _ & Hset & _).
    exact (conj Hr (conj Hs (Hset eq_refl))).
Defined.

(** C4, as first stated, fails on [IS.tsx]: in reverse mode, after a
    trigger has set the flag, the effect that follows the render writes no
    scroll position and leaves the flag set. *)
Lemma no_compensation_in_let_version :
  let s1 := store_of (IS.scrollListener Examples.reverseScroller
                        (Examples.page 100 true) 3 Examples.fresh) in
  let o := IS.effectEveryRender Examples.reverseScroller (Examples.grown 100) 3 s1 in
  isReverse Examples.reverseScroller = true /\
  IS.isLoadMore s1 = true /\
  result_of o = Ok tt /\
  existsb isScrollWrite (log_of o) = false /\
  IS.isLoadMore (store_of o) = true.
Proof. vm_compute. repeat split. Qed.

(** ** Initialisation *)

Lemma ref_effectPageStart_eq p d fuel s :
  ISRef.effectPageStart p d fuel s
    = let sa := refInitialised p d s in
      let o := if initialLoad p then ISRef.scrollListener p d fuel sa
               else (Ok tt, sa, []) in
      (result_of o, store_of o,
       listenersOn (ISRef.scrollContainerRef sa) ++ log_of o).
Proof.
  unfold ISRef.effectPageStart, ISRef.attachScrollListener, refInitialised, listenersOn.
  run_monad. cbn [ISRef.scrollComponentRef ISRef.set_pageLoadedRef].
  destruct (getParentElement p d (ISRef.scrollComponentRef s)) as [pe|];
    [destruct (negb (useWindow p))|]; cbn [fst snd app];
    (destruct (initialLoad p); [|reflexivity]);
    match goal with
    | |- context [ISRef.scrollListener p d fuel ?sa] =>
        destruct (ISRef.scrollListener p d fuel sa) as [[r s'] l]
    end; reflexivity.
Qed.

Lemma let_attachScrollListener_eq p d fuel s :
  IS.attachScrollListener p d fuel s
    = if negb (hasMore p)
         || negb (isSome (getParentElement p d (IS.scrollComponentRef s)))
      then (Ok tt, s, [])
      else
        let o := if initialLoad p then IS.scrollListener p d fuel s
                 else (Ok tt, s, []) in
        (result_of o, store_of o,
         listenersOn (IS.scrollTarget p (getParentElement p d (IS.scrollComponentRef s)))
         ++ log_of o).
Proof.
  unfold IS.attachScrollListener, listenersOn. run_monad.
  destruct (negb (hasMore p)
            || negb (isSome (getParentElement p d (IS.scrollComponentRef s))));
    [reflexivity|].
  destruct (initialLoad p); [|reflexivity].
  destruct (IS.scrollListener p d fuel s) as [[r s'] l]. reflexivity.
Qed.

Lemma let_effectPageStart_eq p d fuel s :
  IS.effectPageStart p d fuel s
    = IS.attachScrollListener p d fuel
        (IS.set_pageLoaded (IS.resetPage (pageStart p)) s).
Proof.
  unfold IS.effectPageStart. run_monad.
  destruct (IS.attachScrollListener p d fuel
              (IS.set_pageLoaded (IS.resetPage (pageStart p)) s)) as [[r s'] l].
  reflexivity.
Qed.

Lemma loadMorePages_app l1 l2 :
  loadMorePages (l1 ++ l2) = loadMorePages l1 ++ loadMorePages l2.
Proof.
  induction l1 as [|e l1 IH]; [reflexivity|].
  destruct e; simpl; rewrite IH; reflexivity.
Qed.

Lemma loadMorePages_listenersOn t l :
  loadMorePages (listenersOn t ++ l) = loadMorePages l.
Proof. reflexivity. Qed.

Lemma refInitialised_page p d s :
  ISRef.pageLoadedRef (refInitialised p d s) = ISRef.resetPage (pageStart p).
Proof.
  unfold refInitialised.
  destruct (getParentElement p d (ISRef.scrollComponentRef s));
    [destruct (negb (useWindow p))|]; reflexivity.
Qed.

(** The [pageStart] effect of either version, taken alone: the counter it
    leaves and the calls it makes. *)
Lemma pageStart_effect_counter :
  forall (p : InfiniteScrollProps) (d : DOM) (fuel : nat)
         (s1 : IS.Store) (s2 : ISRef.Store),
    let start := if pageStart p =? -1 then 0 else pageStart p in
    let o1 := IS.effectPageStart p d fuel s1 in
    let o2 := ISRef.effectPageStart p d fuel s2 in
    (IS.pageLoaded (store_of o1)
       = start + Z.of_nat (length (loadMorePages (log_of o1))) /\
     (loadMorePages (log_of o1) = [] \/ loadMorePages (log_of o1) = [start + 1])) /\
    (ISRef.pageLoadedRef (store_of o2)
       = start + Z.of_nat (length (loadMorePages (log_of o2))) /\
     (loadMorePages (log_of o2) = [] \/ loadMorePages (log_of o2) = [start + 1])) /\
    (initialLoad p = false ->
     IS.pageLoaded (store_of o1) = start /\ ISRef.pageLoadedRef (store_of o2) = start).
Proof.
  intros p d fuel s1 s2. cbv zeta.
  rewrite let_effectPageStart_eq, let_attachScrollListener_eq, ref_effectPageStart_eq.
  cbv zeta. fold (IS.resetPage (pageStart p)).
  set (start := IS.resetPage (pageStart p)).
  set (sa := IS.set_pageLoaded start s1).
  assert (Hsa : IS.pageLoaded sa = start) by reflexivity.
  assert (Hsb : ISRef.pageLoadedRef (refInitialised p d s2) = start)
    by apply refInitialised_page.
  set (sb := refInitialised p d s2) in *.
  pose proof (let_scrollListener_counter p d fuel sa) as Ha.
  pose proof (ref_scrollListener_counter p d fuel sb) as Hb.
  cbv zeta in Ha, Hb. rewrite Hsa in Ha. rewrite Hsb in Hb.
  destruct Ha as [Ha1 Ha2]. destruct Hb as [Hb1 Hb2].
  destruct (negb (hasMore p) || negb (isSome (getParentElement p d (IS.scrollComponentRef sa))));
    destruct (initialLoad p);
    unfold store_of, log_of in *; cbn [fst snd];
    rewrite ?loadMorePages_listenersOn; cbn [loadMorePages length Z.of_nat];
    repeat split; auto; try lia; try discriminate.
Qed.

(** A change of [pageStart] from 0 to the sentinel, and from the sentinel to
    3, on a page where the initial check does not fire: the counter, which
    stood at 4, restarts at 0 and at 3. *)
Example sentinel_restarts_counter :
  let d := Examples.page 0 true in
  ISRef.pageLoadedRef
    (store_of (ISRef.update (Examples.startingAt 0) (Examples.startingAt (-1)) d 3
                 (ISRef.set_pageLoadedRef 4 (ISRef.initialStore (Some 2%nat))))) = 0 /\
  ISRef.pageLoadedRef
    (store_of (ISRef.update (Examples.startingAt (-1)) (Examples.startingAt 3) d 3
                 (ISRef.set_pageLoadedRef 4 (ISRef.initialStore (Some 2%nat))))) = 3 /\
  IS.pageLoaded
    (store_of (IS.update (Examples.startingAt 0) (Examples.startingAt (-1)) d 3
                 (IS.set_pageLoaded 4 Examples.fresh))) = 0 /\
  IS.pageLoaded
    (store_of (IS.update (Examples.startingAt (-1)) (Examples.startingAt 3) d 3
                 (IS.set_pageLoaded 4 Examples.fresh))) = 3.
Proof. vm_compute. repeat split. Qed.

(** ** Without more items *)

(** The children of the render hold no loader once [hasMore] is [false];
    the render is the same in both versions. *)
Lemma no_loader_when_exhausted p :
  hasMore p = false -> childrenArray p = [children p].
Proof. intros H. unfold childrenArray. rewrite H. reflexivity. Qed.

(** X24. [IS.tsx] attaches nothing once [hasMore] is [false]: its mount logs
    no effect at all. *)
Lemma let_mount_attaches_nothing p d fuel s :
  hasMore p = false ->
  result_of (IS.mount p d fuel s) = Ok tt /\
  log_of (IS.mount p d fuel s) = [].
Proof.
  intros H.
  assert (Ha : forall s', IS.attachScrollListener p d fuel s' = (Ok tt, s', [])).
  { intros s'. rewrite let_attachScrollListener_eq, H. reflexivity. }
  unfold IS.mount, IS.render, IS.effectEveryRender. run_monad.
  rewrite let_effectPageStart_eq. rewrite !Ha. cbn [fst snd app].
  rewrite ?Ha. split; reflexivity.
Qed.

(** The ref-based version registers its three listeners in every
    [pageStart] effect, whatever [hasMore] says. *)
Lemma ref_effect_always_attaches p d fuel s :
  exists t rest,
    log_of (ISRef.effectPageStart p d fuel s) = listenersOn t ++ rest.
Proof.
  rewrite ref_effectPageStart_eq. cbv zeta. unfold log_of at 1. cbn [snd].
  eauto.
Qed.

(** C2, on the ref-based version. Mounted with [hasMore = false] (and a
    loader, a callback, the defaults otherwise), the widget renders no
    loader, yet it registers the mousewheel, scroll and resize listeners on
    the window; and where the element is within the threshold its initial
    check calls [loadMore(1)]. *)
Theorem ref_attaches_when_exhausted :
  hasMore Examples.exhausted = false /\
  childrenArray Examples.exhausted = [children Examples.exhausted] /\
  log_of (ISRef.mount Examples.exhausted (Examples.page 0 true) 3
            (ISRef.initialStore (Some 2%nat)))
    = [AddEventListener Window mousewheel; AddEventListener Window scroll;
       AddEventListener Window resize] /\
  log_of (ISRef.mount Examples.exhausted (Examples.page 120 true) 3
            (ISRef.initialStore (Some 2%nat)))
    = [AddEventListener Window mousewheel; AddEventListener Window scroll;
       AddEventListener Window resize; LoadMore 1].
Proof. vm_compute. repeat split. Qed.

(** X25. Nor does [IS.tsx] attach anything when it is rendered again with
    [hasMore = false]: the cleanups only remove listeners. *)
Lemma let_update_attaches_nothing prev p d fuel s :
  hasMore p = false ->
  existsb isListenerAdded (log_of (IS.update prev p d fuel s)) = false.
Proof.
  intros H.
  unfold IS.update, IS.render, IS.effectEveryRender, IS.effectPageStart, IS.cleanup,
    IS.attachScrollListener, IS.detachScrollListener, IS.detachMousewheelListener.
  run_monad. rewrite H.
  destruct (pageStart prev =? pageStart p), (negb (useWindow prev)),
    (IS.scrollComponentRef s) as [e|]; reflexivity.
Qed.

(** With the defaults ([hasMore = false]) the render is the children alone. *)
Example defaults_render c : childrenArray (defaultProps c) = [c].
Proof. reflexivity. Qed.

(** * Further properties of the code *)

(** ** Offsets in reverse mode *)

(** X1. In reverse mode the offset is how far the view is from the top: on
    the window it is [window.pageYOffset], or the document's [scrollTop]
    where the browser has no [pageYOffset]; inside a scroll parent it is the
    parent's [scrollTop].  It does not depend on the widget's element, which
    may even be [null]. *)
Theorem reverse_mode_offset :
  forall (p : InfiniteScrollProps) (d : DOM) (fuel : nat) (el : option ref),
    isReverse p = true ->
    (useWindow p = true ->
     forall parent,
       IS.scrollOffset p d fuel el parent
         = Ok (match pageYOffset d with Some y => y | None => docScrollTop d end) /\
       ISRef.scrollOffset p d fuel el Window
         = Ok (Some (match pageYOffset d with Some y => y | None => docScrollTop d end))) /\
    (useWindow p = false ->
     forall c,
       IS.scrollOffset p d fuel el (Some c) = Ok (scrollTop (node d c)) /\
       ISRef.scrollOffset p d fuel el (Element c) = Ok (Some (scrollTop (node d c)))).
Proof.
  intros p d fuel el Hr. split; intros Hw.
  - intros parent. unfold IS.scrollOffset, ISRef.scrollOffset, windowScrollTop.
    rewrite Hw, Hr. split; reflexivity.
  - intros c. unfold IS.scrollOffset, ISRef.scrollOffset.
    rewrite Hw, Hr. split; reflexivity.
Qed.

Lemma reverse_mode_offset_witness :
  IS.scrollOffset Examples.reverseScroller (Examples.page 100 true) 0 None None = Ok 100 /\
  ISRef.scrollOffset Examples.reverseScroller (Examples.page 100 true) 0 None Window
    = Ok (Some 100).
Proof.
  exact (proj1 (reverse_mode_offset Examples.reverseScroller (Examples.page 100 true)
                  0 None eq_refl) eq_refl None).
Defined.

(** ** Runs of the listener that must not load *)

(** X2. The ref-based version, told not to use the window but left with the
    window as its scroll container (no parent element was found), reads
    [scrollTop] off the window, gets no number, and never loads: the store
    is untouched and nothing is logged. *)
Theorem ref_window_container_never_loads :
  forall (p : InfiniteScrollProps) (d : DOM) (fuel : nat) (s : ISRef.Store),
    useWindow p = false ->
    ISRef.scrollContainerRef s = Window ->
    store_of (ISRef.scrollListener p d fuel s) = s /\
    log_of (ISRef.scrollListener p d fuel s) = [].
Proof.
  intros p d fuel s Hw Hc.
  destruct (ISRef.scrollOffset p d fuel (ISRef.scrollComponentRef s)
              (ISRef.scrollContainerRef s)) as [o|x] eqn:Ho.
  - assert (o = None) as ->.
    { unfold ISRef.scrollOffset in Ho. rewrite Hw, Hc in Ho.
      destruct (isReverse p); simpl in Ho.
      - inversion Ho; reflexivity.
      - destruct (ISRef.scrollComponentRef s); simpl in Ho; inversion Ho; reflexivity. }
    rewrite (ref_scrollListener_quiet p d fuel s None Ho) by (intros; discriminate).
    split; reflexivity.
  - rewrite (ref_scrollListener_throws p d fuel s x Ho). split; reflexivity.
Qed.

Lemma ref_window_container_never_loads_witness :
  log_of (ISRef.scrollListener Examples.paneScroller (Examples.page 0 true) 3
            (ISRef.initialStore (Some 2%nat))) = [].
Proof.
  exact (proj2 (ref_window_container_never_loads Examples.paneScroller
                  (Examples.page 0 true) 3 (ISRef.initialStore (Some 2%nat))
                  eq_refl eq_refl)).
Defined.

(** X3. With no element behind the ref, neither version loads or changes
    its store.  On the window the listener returns quietly (the geometry
    helper gives 0 and the visibility test stops it); in forward mode inside
    a scroll parent it reads [el.scrollHeight] first and throws. *)
Theorem null_element_never_loads :
  forall (p : InfiniteScrollProps) (d : DOM) (fuel : nat)
         (s1 : IS.Store) (s2 : ISRef.Store),
    IS.scrollComponentRef s1 = None ->
    ISRef.scrollComponentRef s2 = None ->
    (store_of (IS.scrollListener p d fuel s1) = s1 /\
     log_of (IS.scrollListener p d fuel s1) = [] /\
     store_of (ISRef.scrollListener p d fuel s2) = s2 /\
     log_of (ISRef.scrollListener p d fuel s2) = []) /\
    (useWindow p = true ->
     result_of (IS.scrollListener p d fuel s1) = Ok tt /\
     result_of (ISRef.scrollListener p d fuel s2) = Ok tt) /\
    (useWindow p = false -> isReverse p = false ->
     result_of (IS.scrollListener p d fuel s1) = Throw TypeError /\
     result_of (ISRef.scrollListener p d fuel s2) = Throw TypeError).
Proof.
  intros p d fuel s1 s2 H1 H2.
  assert (Q1 : forall z,
            IS.scrollOffset p d fuel (IS.scrollComponentRef s1)
              (getParentElement p d (IS.scrollComponentRef s1)) = Ok z ->
            IS.scrollListener p d fuel s1 = (Ok tt, s1, [])).
  { intros z Ho. apply (let_scrollListener_quiet p d fuel s1 z Ho).
    rewrite H1. simpl. apply andb_false_r. }
  assert (Q2 : forall o,
            ISRef.scrollOffset p d fuel (ISRef.scrollComponentRef s2)
              (ISRef.scrollContainerRef s2) = Ok o ->
            ISRef.scrollListener p d fuel s2 = (Ok tt, s2, [])).
  { intros o Ho. apply (ref_scrollListener_quiet p d fuel s2 o Ho).
    intros z _. rewrite H2. simpl. apply andb_false_r. }
  split; [|split].
  - destruct (IS.scrollOffset p d fuel (IS.scrollComponentRef s1)
                (getParentElement p d (IS.scrollComponentRef s1))) as [z|x] eqn:Ho1;
      destruct (ISRef.scrollOffset p d fuel (ISRef.scrollComponentRef s2)
                  (ISRef.scrollContainerRef s2)) as [o|y] eqn:Ho2;
      rewrite ?(Q1 _ eq_refl), ?(Q2 _ eq_refl),
        ?(let_scrollListener_throws p d fuel s1 _ Ho1),
        ?(ref_scrollListener_throws p d fuel s2 _ Ho2);
      repeat split; reflexivity.
  - intros Hw.
    assert (E1 : exists z, IS.scrollOffset p d fuel (IS.scrollComponentRef s1)
                   (getParentElement p d (IS.scrollComponentRef s1)) = Ok z).
    { unfold IS.scrollOffset. rewrite Hw, H1. destruct (isReverse p); simpl; eauto. }
    assert (E2 : exists o, ISRef.scrollOffset p d fuel (ISRef.scrollComponentRef s2)
                   (ISRef.scrollContainerRef s2) = Ok o).
    { unfold ISRef.scrollOffset. rewrite Hw, H2. destruct (isReverse p); simpl; eauto. }
    destruct E1 as [z E1]. destruct E2 as [o E2].
    rewrite (Q1 z E1), (Q2 o E2). split; reflexivity.
  - intros Hw Hr.
    rewrite (let_scrollListener_throws p d fuel s1 TypeError),
      (ref_scrollListener_throws p d fuel s2 TypeError).
    + split; reflexivity.
    + unfold ISRef.scrollOffset. rewrite Hw, Hr, H2. reflexivity.
    + unfold IS.scrollOffset. rewrite Hw, Hr, H1. reflexivity.
Qed.

Lemma null_element_never_loads_witness :
  result_of (IS.scrollListener Examples.paneScroller (Examples.page 0 true) 3
               (IS.mkStore None false 0 0 0)) = Throw TypeError /\
  result_of (ISRef.scrollListener Examples.paneScroller (Examples.page 0 true) 3
               (ISRef.initialStore None)) = Throw TypeError.
Proof.
  exact (proj2 (proj2 (null_element_never_loads Examples.paneScroller
                         (Examples.page 0 true) 3 (IS.mkStore None false 0 0 0)
                         (ISRef.initialStore None) eq_refl eq_refl))
           eq_refl eq_refl).
Defined.

(** ** What a trigger of [IS.tsx] does, and in which order *)

(** X4. When the listener of [IS.tsx] fires with a callback, it first
    removes its scroll and resize listeners (from the window, or from the
    scroll parent when [useWindow] is [false]), leaving the mousewheel
    listener in place, then records the scroll parent's [scrollHeight] and
    [scrollTop], and only then calls [loadMore]. *)
Theorem let_trigger_detaches_then_loads :
  forall (p : InfiniteScrollProps) (d : DOM) (fuel : nat) (s : IS.Store)
         (z : Z) (pn : ref),
    loadMore p = true ->
    IS.scrollOffset p d fuel (IS.scrollComponentRef s)
      (getParentElement p d (IS.scrollComponentRef s)) = Ok z ->
    z < threshold p ->
    visible d (IS.scrollComponentRef s) = true ->
    getParentElement p d (IS.scrollComponentRef s) = Some pn ->
    let t := if useWindow p then Window else Element pn in
    let o := IS.scrollListener p d fuel s in
    log_of o = [RemoveEventListener t scroll; RemoveEventListener t resize;
                LoadMore (IS.pageLoaded s + 1)] /\
    IS.beforeScrollHeight (store_of o) = scrollHeight (node d pn) /\
    IS.beforeScrollTop (store_of o) = scrollTop (node d pn) /\
    IS.isLoadMore (store_of o) = true /\
    IS.scrollComponentRef (store_of o) = IS.scrollComponentRef s.
Proof.
  intros p d fuel s z pn Hl Ho Hz Hv Hp. cbv zeta.
  rewrite (let_scrollListener_fires p d fuel s z pn Ho Hz Hv Hp).
  unfold log_of, store_of, letFired, IS.scrollTarget. cbn [fst snd].
  rewrite (loadCall_supplied p _ Hl), Hl.
  destruct (useWindow p); cbn; repeat split; reflexivity.
Qed.

Lemma let_trigger_detaches_then_loads_witness :
  log_of (IS.scrollListener Examples.scroller (Examples.page 120 true) 3 Examples.fresh)
    = [RemoveEventListener Window scroll; RemoveEventListener Window resize; LoadMore 1].
Proof.
  exact (proj1 (let_trigger_detaches_then_loads Examples.scroller (Examples.page 120 true)
                  3 Examples.fresh 200 1%nat eq_refl eq_refl eq_refl eq_refl eq_refl)).
Defined.

(** ** The scroll container and the listeners of the ref-based version *)

Lemma loadCall_shape p n : loadCall p n = [] \/ loadCall p n = [LoadMore (n + 1)].
Proof. unfold loadCall. destruct (loadMore p); auto. Qed.

(** The listener changes neither ref that points into the page, and logs
    nothing but its one call. *)
Lemma ref_scrollListener_shape p d fuel s :
  exists r s' l,
    ISRef.scrollListener p d fuel s = (r, s', l) /\
    ISRef.scrollContainerRef s' = ISRef.scrollContainerRef s /\
    ISRef.scrollComponentRef s' = ISRef.scrollComponentRef s /\
    (l = [] \/ l = [LoadMore (ISRef.pageLoadedRef s + 1)]).
Proof.
  destruct (ref_scrollListener_cases p d fuel s) as [[x H]|[H|(e & z & _ & H)]];
    rewrite H; do 3 eexists; (split; [reflexivity|]).
  - auto.
  - auto.
  - unfold refFired. destruct (isReverse p), (loadMore p);
      repeat split; try reflexivity; apply loadCall_shape.
Qed.

Lemma ref_effectEveryRender_shape p d s :
  exists r s' l,
    ISRef.effectEveryRender p d s = (r, s', l) /\
    ISRef.scrollContainerRef s' = ISRef.scrollContainerRef s /\
    ISRef.scrollComponentRef s' = ISRef.scrollComponentRef s /\
    ISRef.pageLoadedRef s' = ISRef.pageLoadedRef s /\
    (l = [] \/ exists t y, l = [ScrollTo t 0 y] \/ l = [SetScrollTop t y]) /\
    (isReverse p = false -> l = []).
Proof.
  unfold ISRef.effectEveryRender. run_monad.
  destruct (isReverse p); cbn [andb].
  - destruct (ISRef.isLoadMoreRef s).
    + destruct (ISRef.scrollComponentRef s) as [e|] eqn:He; cbn [deref fst snd].
      * destruct (ISRef.scrollToIsFunction d (ISRef.scrollContainerRef s));
          cbn [fst snd app]; do 3 eexists; (split; [reflexivity|]);
          repeat split; try assumption; try discriminate;
          right; do 2 eexists; [left | right]; reflexivity.
      * do 3 eexists; (split; [reflexivity|]); repeat split; auto; discriminate.
    + do 3 eexists; (split; [reflexivity|]); repeat split; auto.
  - do 3 eexists; (split; [reflexivity|]); repeat split; auto.
Qed.

Lemma ref_effectPageStart_shape p d fuel s :
  exists r s' l,
    ISRef.effectPageStart p d fuel s
      = (r, s', listenersOn (ISRef.scrollContainerRef (refInitialised p d s)) ++ l) /\
    ISRef.scrollContainerRef s' = ISRef.scrollContainerRef (refInitialised p d s) /\
    ISRef.scrollComponentRef s' = ISRef.scrollComponentRef s /\
    (l = [] \/ l = [LoadMore (ISRef.resetPage (pageStart p) + 1)]) /\
    (initialLoad p = false -> l = []).
Proof.
  rewrite ref_effectPageStart_eq. cbv zeta.
  assert (Hel : ISRef.scrollComponentRef (refInitialised p d s)
                = ISRef.scrollComponentRef s).
  { unfold refInitialised.
    destruct (getParentElement p d (ISRef.scrollComponentRef s));
      [destruct (negb (useWindow p))|]; reflexivity. }
  destruct (initialLoad p).
  - destruct (ref_scrollListener_shape p d fuel (refInitialised p d s))
      as (r & s' & l & H & Hc & He & Hl).
    rewrite H. exists r, s', l. unfold result_of, store_of, log_of. cbn [fst snd].
    rewrite refInitialised_page in Hl. rewrite He, Hel.
    repeat split; auto. discriminate.
  - exists (Ok tt), (refInitialised p d s), [].
    unfold result_of, store_of, log_of. cbn [fst snd]. repeat split; auto.
Qed.

(** X5. The ref-based version resolves its scroll container in the
    [pageStart] effect and only there: with [useWindow] it keeps whatever
    container the ref already held (the window, unless an earlier
    initialisation chose an element); without [useWindow] it takes the parent
    element when there is one, and keeps the old container when there is
    none. *)
Theorem ref_scroll_container_resolution :
  forall (p : InfiniteScrollProps) (d : DOM) (fuel : nat) (s : ISRef.Store),
    let t := ISRef.scrollContainerRef (store_of (ISRef.effectPageStart p d fuel s)) in
    (useWindow p = true -> t = ISRef.scrollContainerRef s) /\
    (getParentElement p d (ISRef.scrollComponentRef s) = None ->
     t = ISRef.scrollContainerRef s) /\
    (useWindow p = false ->
     forall c, getParentElement p d (ISRef.scrollComponentRef s) = Some c ->
               t = Element c).
Proof.
  intros p d fuel s. cbv zeta.
  destruct (ref_effectPageStart_shape p d fuel s) as (r & s' & l & H & Hc & _).
  rewrite H. unfold store_of. cbn [fst snd]. rewrite Hc. unfold refInitialised.
  split; [|split].
  - intros Hw. rewrite Hw.
    destruct (getParentElement p d (ISRef.scrollComponentRef s)); reflexivity.
  - intros Hn. rewrite Hn. reflexivity.
  - intros Hw c Hp. rewrite Hw, Hp. reflexivity.
Qed.

Lemma ref_dispatch_keeps_container p d fuel e s :
  ISRef.scrollContainerRef (store_of (ISRef.dispatch p d fuel e s))
    = ISRef.scrollContainerRef s.
Proof.
  destruct e; cbn [ISRef.dispatch].
  - destruct (ref_scrollListener_shape p d fuel s) as (r & s' & l & H & Hc & _).
    rewrite H. exact Hc.
  - destruct (ref_scrollListener_shape p d fuel s) as (r & s' & l & H & Hc & _).
    rewrite H. exact Hc.
  - unfold mousewheelListener.
    destruct ((deltaY =? 1) && negb (isPassiveSupported d)); reflexivity.
  - unfold ISRef.render. run_monad.
    destruct (ref_effectEveryRender_shape p d s) as (r & s' & l & H & Hc & _).
    rewrite H. exact Hc.
  - reflexivity.
Qed.

Lemma ref_run_keeps_container fuel es :
  forall s, ISRef.scrollContainerRef (ISRef.run fuel es s) = ISRef.scrollContainerRef s.
Proof.
  induction es as [|[[p d] e] es IH]; intros s; cbn [ISRef.run]; [reflexivity|].
  rewrite IH. apply ref_dispatch_keeps_container.
Qed.

(** X6. In the ref-based version no listener is left behind: the three
    listeners the [pageStart] effect registers are, after any run of scroll,
    resize and wheel events, renders and earlier cleanups, exactly the three
    the cleanup removes, on the same target. *)
Theorem ref_listeners_round_trip :
  forall (p : InfiniteScrollProps) (d : DOM) (fuel : nat) (s : ISRef.Store)
         (es : list (InfiniteScrollProps * DOM * ISRef.Entry)),
    let started := ISRef.effectPageStart p d fuel s in
    let t := ISRef.scrollContainerRef (store_of started) in
    addedListeners (log_of started) = [(t, mousewheel); (t, scroll); (t, resize)] /\
    log_of (ISRef.cleanup (ISRef.run fuel es (store_of started))) = removalsOn t /\
    removedListeners (log_of (ISRef.cleanup (ISRef.run fuel es (store_of started))))
      = addedListeners (log_of started).
Proof.
  intros p d fuel s es. cbv zeta.
  destruct (ref_effectPageStart_shape p d fuel s) as (r & s' & l & H & Hc & _ & Hl & _).
  rewrite H. unfold store_of, log_of. cbn [fst snd].
  assert (Ha : addedListeners
                 (listenersOn (ISRef.scrollContainerRef (refInitialised p d s)) ++ l)
               = [(ISRef.scrollContainerRef s', mousewheel);
                  (ISRef.scrollContainerRef s', scroll);
                  (ISRef.scrollContainerRef s', resize)]).
  { rewrite Hc. destruct Hl as [-> | ->]; reflexivity. }
  assert (Hk : snd (ISRef.cleanup (ISRef.run fuel es s'))
               = removalsOn (ISRef.scrollContainerRef s')).
  { unfold ISRef.cleanup, ISRef.detachScrollListener, removalsOn. run_monad.
    rewrite ref_run_keeps_container. reflexivity. }
  rewrite Ha, Hk. repeat split; reflexivity.
Qed.

(** X7. In forward mode the ref-based version never writes a scroll
    position, whatever runs. *)
Theorem ref_forward_never_scrolls :
  forall (p : InfiniteScrollProps) (d : DOM) (fuel : nat) (e : ISRef.Entry)
         (s : ISRef.Store),
    isReverse p = false ->
    existsb isScrollWrite (log_of (ISRef.dispatch p d fuel e s)) = false.
Proof.
  intros p d fuel e s Hr. destruct e; cbn [ISRef.dispatch].
  - destruct (ref_scrollListener_shape p d fuel s) as (r & s' & l & H & _ & _ & [-> | ->]);
      rewrite H; reflexivity.
  - destruct (ref_scrollListener_shape p d fuel s) as (r & s' & l & H & _ & _ & [-> | ->]);
      rewrite H; reflexivity.
  - unfold mousewheelListener.
    destruct ((deltaY =? 1) && negb (isPassiveSupported d)); reflexivity.
  - unfold ISRef.render. run_monad.
    destruct (ref_effectEveryRender_shape p d s) as (r & s' & l & H & _ & _ & _ & _ & Hl).
    rewrite H. cbn [fst snd app]. rewrite (Hl Hr). reflexivity.
  - reflexivity.
Qed.

Lemma ref_forward_never_scrolls_witness :
  existsb isScrollWrite
    (log_of (ISRef.dispatch Examples.scroller (Examples.page 120 true) 3 ISRef.OnRender
               (ISRef.set_isLoadMoreRef true (ISRef.initialStore (Some 2%nat))))) = false.
Proof.
  exact (ref_forward_never_scrolls Examples.scroller (Examples.page 120 true) 3
           ISRef.OnRender
           (ISRef.set_isLoadMoreRef true (ISRef.initialStore (Some 2%nat))) eq_refl).
Defined.

(** X8. The compensation is applied once per trigger: after an effect that
    found the flag set and adjusted the scroll position, the effect of a
    later render, with any props and page, does nothing until the listener
    fires again. *)
Theorem ref_compensation_once :
  forall (p p' : InfiniteScrollProps) (d d' : DOM) (s : ISRef.Store) (e : ref),
    isReverse p = true ->
    ISRef.isLoadMoreRef s = true ->
    ISRef.scrollComponentRef s = Some e ->
    let s1 := store_of (ISRef.effectEveryRender p d s) in
    existsb isScrollWrite (log_of (ISRef.effectEveryRender p d s)) = true /\
    ISRef.effectEveryRender p' d' s1 = (Ok tt, s1, []).
Proof.
  intros p p' d d' s e Hr Hf He. cbv zeta.
  assert (H1 : exists l,
            ISRef.effectEveryRender p d s = (Ok tt, ISRef.set_isLoadMoreRef false s, l) /\
            existsb isScrollWrite l = true).
  { unfold ISRef.effectEveryRender. run_monad. rewrite Hr, Hf, He.
    cbn [andb deref fst snd].
    destruct (ISRef.scrollToIsFunction d (ISRef.scrollContainerRef s));
      eexists; split; reflexivity. }
  destruct H1 as (l & H1 & Hl). rewrite H1. unfold store_of, log_of. cbn [fst snd].
  split; [exact Hl|].
  unfold ISRef.effectEveryRender. run_monad.
  cbn [ISRef.isLoadMoreRef ISRef.set_isLoadMoreRef].
  rewrite andb_false_r. reflexivity.
Qed.

Lemma ref_compensation_once_witness :
  let s := store_of (ISRef.scrollListener Examples.reverseScroller
                       (Examples.page 100 true) 3 (ISRef.initialStore (Some 2%nat))) in
  let s1 := store_of (ISRef.effectEveryRender Examples.reverseScroller
                        (Examples.grown 100) s) in
  ISRef.effectEveryRender Examples.reverseScroller (Examples.grown 100) s1 = (Ok tt, s1, []).
Proof.
  exact (proj2 (ref_compensation_once Examples.reverseScroller Examples.reverseScroller
                  (Examples.grown 100) (Examples.grown 100)
                  (store_of (ISRef.scrollListener Examples.reverseScroller
                               (Examples.page 100 true) 3
                               (ISRef.initialStore (Some 2%nat))))
                  2%nat eq_refl eq_refl eq_refl)).
Defined.

(** ** Page numbers over a run of the ref-based version *)

Lemma ref_dispatch_pages p d fuel e s :
  let o := ISRef.dispatch p d fuel e s in
  (loadMorePages (log_of o) = [] /\
   ISRef.pageLoadedRef (store_of o) = ISRef.pageLoadedRef s) \/
  (loadMorePages (log_of o) = [ISRef.pageLoadedRef s + 1] /\
   ISRef.pageLoadedRef (store_of o) = ISRef.pageLoadedRef s + 1).
Proof.
  cbv zeta. destruct e; cbn [ISRef.dispatch].
  - destruct (ref_scrollListener_counter p d fuel s) as [H1 [H2|H2]];
      rewrite H1, H2; [left | right]; split; simpl; auto; lia.
  - destruct (ref_scrollListener_counter p d fuel s) as [H1 [H2|H2]];
      rewrite H1, H2; [left | right]; split; simpl; auto; lia.
  - left. unfold mousewheelListener.
    destruct ((deltaY =? 1) && negb (isPassiveSupported d)); split; reflexivity.
  - left. unfold ISRef.render. run_monad.
    destruct (ref_effectEveryRender_shape p d s)
      as (r & s' & l & H & _ & _ & Hp & Hl & _).
    rewrite H. cbn [fst snd app]. split; [|exact Hp].
    destruct Hl as [-> | (t & y & [-> | ->])]; reflexivity.
  - left. split; reflexivity.
Qed.

(** X9. Between two initialisations the ref-based version hands [loadMore]
    consecutive page numbers: over any run of events the pages called are
    counter + 1, counter + 2, ... without gap or repeat, at most one per
    event, and the counter ends at the last page called. *)
Theorem ref_pages_consecutive :
  forall (fuel : nat) (es : list (InfiniteScrollProps * DOM * ISRef.Entry))
         (s : ISRef.Store),
    let pages := loadMorePages (refRunLog fuel es s) in
    pages = pagesFrom (ISRef.pageLoadedRef s + 1) (length pages) /\
    ISRef.pageLoadedRef (ISRef.run fuel es s)
      = ISRef.pageLoadedRef s + Z.of_nat (length pages) /\
    (length pages <= length es)%nat.
Proof.
  intros fuel es. cbv zeta.
  induction es as [|[[p d] e] es IH]; intros s; cbn [refRunLog ISRef.run].
  - simpl. repeat split; lia.
  - rewrite loadMorePages_app.
    destruct (IH (store_of (ISRef.dispatch p d fuel e s))) as (IH1 & IH2 & IH3).
    destruct (ref_dispatch_pages p d fuel e s) as [[Hp Hc]|[Hp Hc]];
      rewrite Hp; rewrite Hc in IH1, IH2.
    + cbn [app]. repeat split; [exact IH1 | exact IH2 | simpl; lia].
    + cbn [app length pagesFrom]. repeat split.
      * f_equal. exact IH1.
      * rewrite IH2. lia.
      * simpl. lia.
Qed.

(** ** Renders of the ref-based version *)

(** X10. A render of the ref-based version whose [pageStart] is unchanged
    leaves the listeners alone: it adds none, removes none, calls no
    [loadMore], and keeps the counter and the scroll container. *)
Theorem ref_rerender_keeps_listeners :
  forall (prev p : InfiniteScrollProps) (d : DOM) (fuel : nat) (s : ISRef.Store),
    pageStart prev = pageStart p ->
    let o := ISRef.update prev p d fuel s in
    addedListeners (log_of o) = [] /\
    removedListeners (log_of o) = [] /\
    loadMorePages (log_of o) = [] /\
    ISRef.pageLoadedRef (store_of o) = ISRef.pageLoadedRef s /\
    ISRef.scrollContainerRef (store_of o) = ISRef.scrollContainerRef s.
Proof.
  intros prev p d fuel s Hp. cbv zeta.
  unfold ISRef.update, ISRef.render. run_monad.
  rewrite Hp, Z.eqb_refl. cbn [fst snd app].
  destruct (ref_effectEveryRender_shape p d s) as (r & s' & l & H & Hc & _ & Hn & Hl & _).
  rewrite H. cbn [fst snd app].
  destruct Hl as [-> | (t & y & [-> | ->])]; repeat split; auto.
Qed.

Lemma ref_rerender_keeps_listeners_witness :
  let o := ISRef.update Examples.scroller Examples.scroller (Examples.page 120 true) 3
             MoreExamples.inPane in
  addedListeners (log_of o) = [] /\
  removedListeners (log_of o) = [] /\
  loadMorePages (log_of o) = [] /\
  ISRef.pageLoadedRef (store_of o) = 0 /\
  ISRef.scrollContainerRef (store_of o) = Element 1%nat.
Proof.
  exact (ref_rerender_keeps_listeners Examples.scroller Examples.scroller
           (Examples.page 120 true) 3 MoreExamples.inPane eq_refl).
Defined.

Lemma ref_update_reinit_shape prev p d fuel s :
  pageStart prev <> pageStart p ->
  exists r s' l l3,
    ISRef.update prev p d fuel s
      = (r, s',
         removalsOn (ISRef.scrollContainerRef s)
         ++ listenersOn (ISRef.scrollContainerRef s') ++ l ++ l3) /\
    (l = [] \/ l = [LoadMore (ISRef.resetPage (pageStart p) + 1)]) /\
    (l3 = [] \/ exists t y, l3 = [ScrollTo t 0 y] \/ l3 = [SetScrollTop t y]).
Proof.
  intros Hp. apply Z.eqb_neq in Hp.
  unfold ISRef.update, ISRef.render, ISRef.cleanup, ISRef.detachScrollListener.
  run_monad. rewrite Hp. cbn [fst snd app].
  destruct (ref_effectPageStart_shape p d fuel s) as (r & s1 & l & H & Hc & _ & Hl & _).
  rewrite H. cbn [fst snd app]. rewrite <- Hc.
  destruct r as [[]|x].
  - destruct (ref_effectEveryRender_shape p d s1) as (r3 & s3 & l3 & H3 & Hc3 & _ & _ & Hl3 & _).
    rewrite H3. cbn [fst snd app]. exists r3, s3, l, l3. rewrite Hc3.
    split; [|split; assumption].
    unfold removalsOn, listenersOn. cbn [app]. reflexivity.
  - exists (Throw x), s1, l, []. split; [|split; auto].
    unfold removalsOn, listenersOn. cbn [app]. rewrite ?app_nil_r. reflexivity.
Qed.

(** X11. When [pageStart] changes, the ref-based version first removes its
    three listeners from the container it had, and only then registers the
    three on the container it resolved; nothing else in that render touches
    listeners. *)
Theorem ref_reinit_detaches_before_attaching :
  forall (prev p : InfiniteScrollProps) (d : DOM) (fuel : nat) (s : ISRef.Store),
    pageStart prev <> pageStart p ->
    let o := ISRef.update prev p d fuel s in
    exists rest,
      log_of o = removalsOn (ISRef.scrollContainerRef s)
                 ++ listenersOn (ISRef.scrollContainerRef (store_of o)) ++ rest /\
      addedListeners rest = [] /\
      removedListeners rest = [].
Proof.
  intros prev p d fuel s Hp. cbv zeta.
  destruct (ref_update_reinit_shape prev p d fuel s Hp)
    as (r & s' & l & l3 & H & Hl & Hl3).
  rewrite H. unfold log_of, store_of. cbn [fst snd]. exists (l ++ l3).
  split; [reflexivity|].
  destruct Hl as [-> | ->]; destruct Hl3 as [-> | (t & y & [-> | ->])];
    split; reflexivity.
Qed.

Lemma ref_reinit_detaches_before_attaching_witness :
  exists rest,
    log_of (ISRef.update (Examples.startingAt 5) Examples.paneScroller
              (Examples.page 0 true) 3
              (ISRef.initialStore (Some 2%nat)))
      = removalsOn Window ++ listenersOn (Element 1%nat) ++ rest /\
    addedListeners rest = [] /\
    removedListeners rest = [].
Proof.
  assert (H : pageStart (Examples.startingAt 5) <> pageStart Examples.paneScroller)
    by (simpl; lia).
  exact (ref_reinit_detaches_before_attaching (Examples.startingAt 5)
           Examples.paneScroller (Examples.page 0 true) 3
           (ISRef.initialStore (Some 2%nat)) H).
Defined.

(** ** Listeners of [IS.tsx] *)

Lemma let_scrollListener_shape p d fuel s :
  exists r s' l,
    IS.scrollListener p d fuel s = (r, s', l) /\
    IS.scrollComponentRef s' = IS.scrollComponentRef s /\
    addedListeners l = [] /\
    (loadMorePages l = [] \/ loadMorePages l = [IS.pageLoaded s + 1]).
Proof.
  destruct (let_scrollListener_cases p d fuel s) as [[x H]|[H|[H|[pn H]]]];
    rewrite H; do 3 eexists; (split; [reflexivity|]).
  - auto.
  - auto.
  - auto.
  - unfold letFired, loadCall. destruct (loadMore p); cbn; auto.
Qed.

(** Which listeners an attach of [IS.tsx] registers. *)
Lemma let_attach_added :
  forall (p : InfiniteScrollProps) (d : DOM) (fuel : nat) (s : IS.Store),
    let o := IS.attachScrollListener p d fuel s in
    let parent := getParentElement p d (IS.scrollComponentRef s) in
    (hasMore p = false \/ parent = None -> o = (Ok tt, s, [])) /\
    (hasMore p = true ->
     forall c, parent = Some c ->
       let t := if useWindow p then Window else Element c in
       addedListeners (log_of o) = [(t, mousewheel); (t, scroll); (t, resize)]).
Proof.
  intros p d fuel s. cbv zeta. rewrite let_attachScrollListener_eq. split.
  - intros [H|H]; rewrite H; [reflexivity|]. simpl. rewrite orb_true_r. reflexivity.
  - intros H c Hc. rewrite H, Hc. cbn [negb isSome orb]. cbv zeta.
    unfold log_of at 1. cbn [snd]. unfold IS.scrollTarget.
    assert (Hl : addedListeners
                   (log_of (if initialLoad p then IS.scrollListener p d fuel s
                            else (Ok tt, s, []))) = []).
    { destruct (initialLoad p); [|reflexivity].
      destruct (let_scrollListener_shape p d fuel s) as (r & s' & l & E & _ & Ha & _).
      rewrite E. exact Ha. }
    destruct (useWindow p); cbn [negb listenersOn app addedListeners];
      rewrite Hl; reflexivity.
Qed.

(** X12. [IS.tsx] registers its listeners exactly when [hasMore] holds and a
    parent element is found (the override's, else the element's own parent);
    they go to the window under [useWindow] and to that parent otherwise.
    With [hasMore] off or no parent, attaching does nothing at all. *)
Theorem let_attach_gate :
  forall (p : InfiniteScrollProps) (d : DOM) (fuel : nat) (s : IS.Store),
    let o := IS.attachScrollListener p d fuel s in
    let parent := getParentElement p d (IS.scrollComponentRef s) in
    (hasMore p = false \/ parent = None -> o = (Ok tt, s, [])) /\
    (hasMore p = true ->
     forall c, parent = Some c ->
       let t := if useWindow p then Window else Element c in
       addedListeners (log_of o) = [(t, mousewheel); (t, scroll); (t, resize)]).
Proof. intros p d fuel s. apply let_attach_added. Qed.

Lemma let_attach_gate_witness :
  addedListeners
    (log_of (IS.attachScrollListener Examples.paneScroller (Examples.page 0 true) 3
               Examples.fresh))
    = [(Element 1%nat, mousewheel); (Element 1%nat, scroll); (Element 1%nat, resize)].
Proof.
  exact (proj2 (let_attach_gate Examples.paneScroller (Examples.page 0 true) 3
                  Examples.fresh) eq_refl 1%nat eq_refl).
Defined.

Lemma let_attach_keeps_element p d fuel s :
  IS.scrollComponentRef (store_of (IS.attachScrollListener p d fuel s))
    = IS.scrollComponentRef s.
Proof.
  rewrite let_attachScrollListener_eq.
  destruct (negb (hasMore p)
            || negb (isSome (getParentElement p d (IS.scrollComponentRef s))));
    [reflexivity|].
  cbv zeta. unfold store_of at 1. cbn [fst snd].
  destruct (initialLoad p); [|reflexivity].
  destruct (let_scrollListener_shape p d fuel s) as (r & s' & l & E & He & _).
  rewrite E. exact He.
Qed.

Lemma let_cleanup_log p d s e :
  IS.scrollComponentRef s = Some e ->
  IS.cleanup p d s
    = (Ok tt, s,
       [RemoveEventListener
          (IS.scrollTarget p (getParentElement p d (Some e))) scroll;
        RemoveEventListener
          (IS.scrollTarget p (getParentElement p d (Some e))) resize;
        RemoveEventListener
          (if negb (useWindow p)
           then IS.scrollTarget p (parentNode (node d e)) else Window)
          mousewheel]).
Proof.
  intros He. unfold IS.cleanup, IS.detachScrollListener, IS.detachMousewheelListener.
  run_monad. rewrite He. destruct (negb (useWindow p)); reflexivity.
Qed.

(** X13. In [IS.tsx], with the window as target or without an override of
    the scroll parent, every listener an attach registers is among those
    the cleanup removes, and the cleanup returns normally. *)
Theorem let_listeners_round_trip :
  forall (p : InfiniteScrollProps) (d : DOM) (fuel : nat) (s : IS.Store) (e : ref),
    IS.scrollComponentRef s = Some e ->
    useWindow p = true \/ getScrollParent p = None \/ getScrollParent p = Some None ->
    let started := IS.attachScrollListener p d fuel s in
    let cleaned := IS.cleanup p d (store_of started) in
    result_of cleaned = Ok tt /\
    incl (addedListeners (log_of started)) (removedListeners (log_of cleaned)).
Proof.
  intros p d fuel s e He Hcase. cbv zeta.
  assert (He' : IS.scrollComponentRef (store_of (IS.attachScrollListener p d fuel s))
                = Some e) by (rewrite let_attach_keeps_element; exact He).
  rewrite (let_cleanup_log p d _ e He'). unfold result_of, log_of at 2.
  cbn [fst snd removedListeners]. split; [reflexivity|].
  destruct (hasMore p) eqn:Hm.
  - destruct (getParentElement p d (IS.scrollComponentRef s)) as [c|] eqn:Hc.
    + rewrite (proj2 (let_attach_added p d fuel s) Hm c Hc). cbv zeta.
      rewrite He in Hc. rewrite Hc. unfold IS.scrollTarget.
      destruct Hcase as [Hw | Hov].
      * rewrite Hw. cbn [negb]. intros x Hx. simpl in Hx. simpl. tauto.
      * assert (Hpar : parentNode (node d e) = Some c).
        { unfold getParentElement in Hc. destruct Hov as [Ho|Ho]; rewrite Ho in Hc;
            exact Hc. }
        rewrite Hpar. destruct (useWindow p); cbn [negb];
          intros x Hx; simpl in Hx; simpl; tauto.
    + rewrite (proj1 (let_attach_added p d fuel s) (or_intror Hc)).
      intros x Hx. destruct Hx.
  - rewrite (proj1 (let_attach_added p d fuel s) (or_introl Hm)).
    intros x Hx. destruct Hx.
Qed.

Lemma let_listeners_round_trip_witness :
  let started := IS.attachScrollListener Examples.paneScroller (Examples.page 0 true) 3
                   Examples.fresh in
  let cleaned := IS.cleanup Examples.paneScroller (Examples.page 0 true)
                   (store_of started) in
  result_of cleaned = Ok tt /\
  incl (addedListeners (log_of started)) (removedListeners (log_of cleaned)).
Proof.
  exact (let_listeners_round_trip Examples.paneScroller (Examples.page 0 true) 3
           Examples.fresh 2%nat eq_refl (or_intror (or_introl eq_refl))).
Defined.

(** X14. In [IS.tsx], when an override names a scroll parent other than the
    element's own parent and [useWindow] is [false], the mousewheel listener
    is registered on the override's element but the cleanup looks for it on
    the element's own parent: the registered one is not among the listeners
    removed. *)
Theorem let_mousewheel_left_on_override :
  forall (p : InfiniteScrollProps) (d : DOM) (fuel : nat) (s : IS.Store) (e x : ref),
    IS.scrollComponentRef s = Some e ->
    useWindow p = false ->
    hasMore p = true ->
    getScrollParent p = Some (Some x) ->
    parentNode (node d e) <> Some x ->
    let started := IS.attachScrollListener p d fuel s in
    let cleaned := IS.cleanup p d (store_of started) in
    In (Element x, mousewheel) (addedListeners (log_of started)) /\
    ~ In (Element x, mousewheel) (removedListeners (log_of cleaned)).
Proof.
  intros p d fuel s e x He Hw Hm Ho Hne. cbv zeta.
  assert (Hp : getParentElement p d (IS.scrollComponentRef s) = Some x).
  { unfold getParentElement. rewrite Ho. reflexivity. }
  assert (He' : IS.scrollComponentRef (store_of (IS.attachScrollListener p d fuel s))
                = Some e) by (rewrite let_attach_keeps_element; exact He).
  rewrite (proj2 (let_attach_added p d fuel s) Hm x Hp). cbv zeta.
  rewrite (let_cleanup_log p d _ e He'). unfold log_of.
  cbn [snd removedListeners]. rewrite Hw. cbn [negb]. split.
  - left. reflexivity.
  - unfold IS.scrollTarget. rewrite Hw. cbn [negb].
    intros [H|[H|[H|[]]]]; try discriminate.
    destruct (parentNode (node d e)) as [y|]; [|discriminate].
    inversion H; subst. apply Hne. reflexivity.
Qed.

Lemma let_mousewheel_left_on_override_witness :
  let started := IS.attachScrollListener MoreExamples.overridden (Examples.page 0 true) 3
                   Examples.fresh in
  let cleaned := IS.cleanup MoreExamples.overridden (Examples.page 0 true)
                   (store_of started) in
  In (Element 0%nat, mousewheel) (addedListeners (log_of started)) /\
  ~ In (Element 0%nat, mousewheel) (removedListeners (log_of cleaned)).
Proof.
  assert (H : parentNode (node (Examples.page 0 true) 2%nat) <> Some 0%nat)
    by (simpl; discriminate).
  exact (let_mousewheel_left_on_override MoreExamples.overridden (Examples.page 0 true) 3
           Examples.fresh 2%nat 0%nat eq_refl eq_refl eq_refl eq_refl H).
Defined.

(** X15. The cleanup of [IS.tsx] with a [null] ref: under [useWindow] it
    removes the three listeners from the window and returns; with
    [useWindow] off it removes scroll and resize, then reads
    [scrollComponentRef.current.parentNode] and throws a [TypeError], so the
    mousewheel listener stays. *)
Theorem let_cleanup_with_null_ref :
  forall (p : InfiniteScrollProps) (d : DOM) (s : IS.Store),
    IS.scrollComponentRef s = None ->
    (useWindow p = true ->
     IS.cleanup p d s
       = (Ok tt, s,
          [RemoveEventListener Window scroll; RemoveEventListener Window resize;
           RemoveEventListener Window mousewheel])) /\
    (useWindow p = false ->
     result_of (IS.cleanup p d s) = Throw TypeError /\
     store_of (IS.cleanup p d s) = s /\
     removedListeners (log_of (IS.cleanup p d s))
       = [(IS.scrollTarget p (getParentElement p d None), scroll);
          (IS.scrollTarget p (getParentElement p d None), resize)]).
Proof.
  intros p d s He.
  unfold IS.cleanup, IS.detachScrollListener, IS.detachMousewheelListener.
  run_monad. rewrite He. split; intros Hw; rewrite Hw; cbn [negb].
  - unfold IS.scrollTarget. rewrite Hw.
    destruct (getParentElement p d None); reflexivity.
  - cbn. repeat split; reflexivity.
Qed.

Lemma let_cleanup_with_null_ref_witness :
  result_of (IS.cleanup Examples.paneScroller (Examples.page 0 true)
               (IS.mkStore None false 0 0 0)) = Throw TypeError.
Proof.
  exact (proj1 (proj2 (let_cleanup_with_null_ref Examples.paneScroller
                         (Examples.page 0 true) (IS.mkStore None false 0 0 0) eq_refl)
                 eq_refl)).
Defined.


(** ** Mounting without an initial check *)

Lemma let_attach_without_initialLoad p d fuel s :
  initialLoad p = false ->
  exists l, IS.attachScrollListener p d fuel s = (Ok tt, s, l) /\ loadMorePages l = [].
Proof.
  intros Hi. rewrite let_attachScrollListener_eq, Hi.
  destruct (negb (hasMore p)
            || negb (isSome (getParentElement p d (IS.scrollComponentRef s)))).
  - exists []. split; reflexivity.
  - eexists. split; reflexivity.
Qed.

(** X17. With [initialLoad] off, mounting never calls [loadMore], in either
    version, and leaves the counter at its start value (0 for the sentinel
    -1, [pageStart] otherwise). *)
Theorem mount_without_initialLoad :
  forall (p : InfiniteScrollProps) (d : DOM) (fuel : nat)
         (s1 : IS.Store) (s2 : ISRef.Store),
    initialLoad p = false ->
    let start := if pageStart p =? -1 then 0 else pageStart p in
    loadMorePages (log_of (IS.mount p d fuel s1)) = [] /\
    IS.pageLoaded (store_of (IS.mount p d fuel s1)) = start /\
    loadMorePages (log_of (ISRef.mount p d fuel s2)) = [] /\
    ISRef.pageLoadedRef (store_of (ISRef.mount p d fuel s2)) = start.
Proof.
  intros p d fuel s1 s2 Hi. cbv zeta.
  fold (IS.resetPage (pageStart p)).
  assert (H1 : loadMorePages (log_of (IS.mount p d fuel s1)) = [] /\
               IS.pageLoaded (store_of (IS.mount p d fuel s1))
               = IS.resetPage (pageStart p)).
  { unfold IS.mount, IS.render, IS.effectEveryRender. run_monad.
    rewrite let_effectPageStart_eq.
    match goal with
    | |- context [IS.attachScrollListener p d fuel ?sa] =>
        destruct (let_attach_without_initialLoad p d fuel sa Hi) as (l & E & Hl);
        rewrite E
    end.
    cbn [fst snd app].
    match goal with
    | |- context [IS.attachScrollListener p d fuel ?sa] =>
        destruct (let_attach_without_initialLoad p d fuel sa Hi) as (l' & E' & Hl');
        rewrite E'
    end.
    cbn [fst snd app]. rewrite loadMorePages_app, Hl, Hl'. split; reflexivity. }
  assert (H2 : loadMorePages (log_of (ISRef.mount p d fuel s2)) = [] /\
               ISRef.pageLoadedRef (store_of (ISRef.mount p d fuel s2))
               = IS.resetPage (pageStart p)).
  { unfold ISRef.mount, ISRef.render. run_monad.
    rewrite ref_effectPageStart_eq, Hi. cbv zeta.
    unfold result_of, store_of, log_of. cbn [fst snd app].
    destruct (ref_effectEveryRender_shape p d (refInitialised p d s2))
      as (r & s' & l & H & _ & _ & Hp & Hl & _).
    rewrite H. cbn [fst snd app]. rewrite Hp, refInitialised_page.
    rewrite app_nil_r, loadMorePages_listenersOn.
    split; [|reflexivity].
    destruct Hl as [-> | (t & y & [-> | ->])]; reflexivity. }
  tauto.
Qed.

Lemma mount_without_initialLoad_witness :
  loadMorePages (log_of (IS.mount MoreExamples.quietStart (Examples.page 120 true) 3
                           Examples.fresh)) = [] /\
  IS.pageLoaded (store_of (IS.mount MoreExamples.quietStart (Examples.page 120 true) 3
                             Examples.fresh)) = 0 /\
  loadMorePages (log_of (ISRef.mount MoreExamples.quietStart (Examples.page 120 true) 3
                           (ISRef.initialStore (Some 2%nat)))) = [] /\
  ISRef.pageLoadedRef
    (store_of (ISRef.mount MoreExamples.quietStart (Examples.page 120 true) 3
                 (ISRef.initialStore (Some 2%nat)))) = 0.
Proof.
  exact (mount_without_initialLoad MoreExamples.quietStart (Examples.page 120 true) 3
           Examples.fresh (ISRef.initialStore (Some 2%nat)) eq_refl).
Defined.

(** ** The demo page *)

Lemma app_step_invariant st e :
  App.hasMoreItems st = true ->
  App.pageCount st = 0 \/ App.pageCount st = -1 ->
  App.hasMoreItems (App.step st e) = true /\
  (App.pageCount (App.step st e) = 0 \/ App.pageCount (App.step st e) = -1).
Proof.
  intros Hm Hc. destruct e as [|page|data]; cbn.
  - auto.
  - split; [reflexivity|]. destruct (page =? 5); cbn; auto.
  - auto.
Qed.

(** X18. In the first demo page the list never ends up exhausted: once each
    handler has run, after any sequence of reloads, loads (page 5 included,
    whose [setHasMoreItems(false)] is overwritten by the [true] that follows
    it) and responses, the state hands the widget [hasMore = true], so that
    render carries the loader after the list, and a [pageStart] that stands
    for start value 0. *)
Theorem app_never_exhausted :
  forall (es : list App.Event),
    let st := fold_left App.step es App.initial in
    hasMore (App.widgetProps st) = true /\
    childrenArray (App.widgetProps st) = ["List"%string; "Spin"%string] /\
    IS.resetPage (pageStart (App.widgetProps st)) = 0.
Proof.
  intros es. cbv zeta.
  assert (Inv : forall st,
            App.hasMoreItems st = true ->
            App.pageCount st = 0 \/ App.pageCount st = -1 ->
            App.hasMoreItems (fold_left App.step es st) = true /\
            (App.pageCount (fold_left App.step es st) = 0 \/
             App.pageCount (fold_left App.step es st) = -1)).
  { induction es as [|e es IH]; intros st Hm Hc; cbn [fold_left]; [auto|].
    destruct (app_step_invariant st e Hm Hc) as [Hm' Hc']. apply IH; assumption. }
  destruct (Inv App.initial eq_refl (or_introl eq_refl)) as [Hm Hc].
  unfold childrenArray, App.widgetProps, IS.resetPage. cbn.
  rewrite Hm. repeat split.
  destruct Hc as [-> | ->]; reflexivity.
Qed.

(** X19. In the second demo page, a load of page 5 asks the server for
    nothing, turns [hasMoreItems] off, and always changes [pageCount] (to -1,
    or to 0 when it was -1), so the widget's [pageStart] effect runs again,
    and in both cases with start value 0; every other page leaves the state
    alone and sends one request. *)
Theorem toggle_page_five_restarts :
  forall (st : AppToggle.State) (page : Z),
    let st' := fst (AppToggle.loadItems page st) in
    (page = 5 ->
     snd (AppToggle.loadItems page st) = [] /\
     AppToggle.hasMoreItems st' = false /\
     AppToggle.pageCount st' <> AppToggle.pageCount st /\
     ISRef.resetPage (pageStart (AppToggle.widgetProps st')) = 0 /\
     AppToggle.listData st' = AppToggle.listData st) /\
    (page <> 5 ->
     AppToggle.loadItems page st = (st, [GetList])).
Proof.
  intros st page. cbv zeta. unfold AppToggle.loadItems. split.
  - intros ->. cbn.
    destruct (Z.eqb_spec (AppToggle.pageCount st) (-1)) as [E|E];
      cbn; repeat split; try reflexivity; lia.
  - intros Hn. apply Z.eqb_neq in Hn. rewrite Hn. reflexivity.
Qed.

Lemma toggle_page_five_restarts_witness :
  AppToggle.pageCount (fst (AppToggle.loadItems 5 (AppToggle.mountEffect AppToggle.initial)))
    <> AppToggle.pageCount (AppToggle.mountEffect AppToggle.initial).
Proof.
  destruct (proj1 (toggle_page_five_restarts (AppToggle.mountEffect AppToggle.initial) 5)
              eq_refl) as (_ & _ & H & _).
  exact H.
Defined.

(** ** Witnesses for lemmas stated above *)

Lemma calculateTopPosition_Ok_chain_witness :
  exists l, offsetChain (Examples.page 0 true) (Some 2%nat) l /\
            (length l <= 5)%nat /\ 120 = sumOffsetTop (Examples.page 0 true) l.
Proof.
  exact (calculateTopPosition_Ok_chain (Examples.page 0 true) 5 (Some 2%nat) 120 eq_refl).
Defined.

Lemma let_mount_attaches_nothing_witness :
  result_of (IS.mount Examples.exhausted (Examples.page 120 true) 3 Examples.fresh) = Ok tt /\
  log_of (IS.mount Examples.exhausted (Examples.page 120 true) 3 Examples.fresh) = [].
Proof.
  exact (let_mount_attaches_nothing Examples.exhausted (Examples.page 120 true) 3
           Examples.fresh eq_refl).
Defined.

Lemma let_update_attaches_nothing_witness :
  existsb isListenerAdded
    (log_of (IS.update Examples.scroller Examples.exhausted (Examples.page 120 true) 3
               Examples.fresh)) = false.
Proof.
  exact (let_update_attaches_nothing Examples.scroller Examples.exhausted
           (Examples.page 120 true) 3 Examples.fresh eq_refl).
Defined.

Lemma trigger_increments_by_one_witness :
  ISRef.pageLoadedRef
    (store_of (ISRef.scrollListener Examples.fromPage5 (Examples.page 120 true) 3
                 (ISRef.set_pageLoadedRef 5 (ISRef.initialStore (Some 2%nat))))) = 5 + 1 /\
  loadMorePages
    (log_of (ISRef.scrollListener Examples.fromPage5 (Examples.page 120 true) 3
               (ISRef.set_pageLoadedRef 5 (ISRef.initialStore (Some 2%nat))))) = [5 + 1].
Proof.
  exact (proj1 (trigger_increments_by_one Examples.fromPage5 (Examples.page 120 true) 3
                  eq_refl)
           (ISRef.set_pageLoadedRef 5 (ISRef.initialStore (Some 2%nat)))
           2%nat 200 eq_refl eq_refl ltac:(simpl; lia) eq_refl).
Defined.

(** ** How often a mount loads *)

Lemma let_attach_fires p d fuel s e pn z :
  hasMore p = true -> initialLoad p = true -> loadMore p = true ->
  IS.scrollComponentRef s = Some e ->
  getParentElement p d (Some e) = Some pn ->
  IS.scrollOffset p d fuel (Some e) (Some pn) = Ok z ->
  z < threshold p ->
  visible d (Some e) = true ->
  IS.attachScrollListener p d fuel s
    = (Ok tt, letFired p d s pn,
       listenersOn (IS.scrollTarget p (Some pn))
       ++ [RemoveEventListener (IS.scrollTarget p (Some pn)) scroll;
           RemoveEventListener (IS.scrollTarget p (Some pn)) resize;
           LoadMore (IS.pageLoaded s + 1)]).
Proof.
  intros Hm Hi Hl He Hp Ho Hz Hv.
  rewrite let_attachScrollListener_eq, Hm, Hi, He, Hp. cbn [negb isSome orb]. cbv zeta.
  rewrite (let_scrollListener_fires p d fuel s z pn);
    rewrite ?He, ?Hp; auto.
  rewrite (loadCall_supplied p _ Hl). reflexivity.
Qed.

(** X20. [IS.tsx] loads twice on mount: when there are more items, the
    initial check is on, a callback is there and the element is visible
    within the threshold (on a page the callback leaves as it is), the
    [pageStart] effect and the effect that follows every render each attach
    and fire, so [loadMore] is called with start + 1 and then with
    start + 2. *)
Theorem let_mount_loads_twice :
  forall (p : InfiniteScrollProps) (d : DOM) (fuel : nat) (s : IS.Store)
         (e pn : ref) (z : Z),
    hasMore p = true -> initialLoad p = true -> loadMore p = true ->
    IS.scrollComponentRef s = Some e ->
    getParentElement p d (Some e) = Some pn ->
    IS.scrollOffset p d fuel (Some e) (Some pn) = Ok z ->
    z < threshold p ->
    visible d (Some e) = true ->
    let start := if pageStart p =? -1 then 0 else pageStart p in
    result_of (IS.mount p d fuel s) = Ok tt /\
    loadMorePages (log_of (IS.mount p d fuel s)) = [start + 1; start + 2] /\
    IS.pageLoaded (store_of (IS.mount p d fuel s)) = start + 2.
Proof.
  intros p d fuel s e pn z Hm Hi Hl He Hp Ho Hz Hv. cbv zeta.
  fold (IS.resetPage (pageStart p)).
  unfold IS.mount, IS.render, IS.effectEveryRender. run_monad.
  rewrite let_effectPageStart_eq.
  rewrite (let_attach_fires p d fuel _ e pn z Hm Hi Hl) by (try assumption; exact He).
  cbn [fst snd app].
  rewrite (let_attach_fires p d fuel _ e pn z Hm Hi Hl);
    try assumption.
  2:{ unfold letFired. rewrite Hl. exact He. }
  cbn [fst snd app]. unfold letFired. rewrite Hl. cbn.
  replace (IS.resetPage (pageStart p) + 1 + 1) with (IS.resetPage (pageStart p) + 2) by lia.
  repeat split.
Qed.

Lemma let_mount_loads_twice_witness :
  result_of (IS.mount Examples.scroller (Examples.page 120 true) 3 Examples.fresh) = Ok tt /\
  loadMorePages (log_of (IS.mount Examples.scroller (Examples.page 120 true) 3
                           Examples.fresh)) = [0 + 1; 0 + 2] /\
  IS.pageLoaded (store_of (IS.mount Examples.scroller (Examples.page 120 true) 3
                             Examples.fresh)) = 0 + 2.
Proof.
  exact (let_mount_loads_twice Examples.scroller (Examples.page 120 true) 3 Examples.fresh
           2%nat 1%nat 200 eq_refl eq_refl eq_refl eq_refl eq_refl eq_refl eq_refl eq_refl).
Defined.

Lemma ref_effectPageStart_counter p d fuel s :
  let o := ISRef.effectPageStart p d fuel s in
  ISRef.pageLoadedRef (store_of o)
    = ISRef.resetPage (pageStart p) + Z.of_nat (length (loadMorePages (log_of o))) /\
  (loadMorePages (log_of o) = [] \/
   loadMorePages (log_of o) = [ISRef.resetPage (pageStart p) + 1]).
Proof.
  cbv zeta. rewrite ref_effectPageStart_eq. cbv zeta.
  pose proof (ref_scrollListener_counter p d fuel (refInitialised p d s)) as H.
  cbv zeta in H. rewrite refInitialised_page in H.
  destruct (initialLoad p).
  - destruct (ISRef.scrollListener p d fuel (refInitialised p d s)) as [[r s'] l].
    unfold result_of, store_of, log_of in *.
    cbn [fst snd listenersOn app loadMorePages] in *. exact H.
  - unfold result_of, store_of, log_of.
    cbn [fst snd listenersOn app loadMorePages length].
    rewrite refInitialised_page. split; [simpl; lia | auto].
Qed.

(** X21. The ref-based version loads at most once on mount, and then with
    start + 1; the counter ends at the start value plus the calls made. *)
Theorem ref_mount_loads_at_most_once :
  forall (p : InfiniteScrollProps) (d : DOM) (fuel : nat) (s : ISRef.Store),
    let start := if pageStart p =? -1 then 0 else pageStart p in
    let o := ISRef.mount p d fuel s in
    (loadMorePages (log_of o) = [] \/ loadMorePages (log_of o) = [start + 1]) /\
    ISRef.pageLoadedRef (store_of o)
      = start + Z.of_nat (length (loadMorePages (log_of o))).
Proof.
  intros p d fuel s. cbv zeta. fold (ISRef.resetPage (pageStart p)).
  pose proof (ref_effectPageStart_counter p d fuel s) as [Hc Hl]. cbv zeta in Hc, Hl.
  unfold ISRef.mount, ISRef.render. run_monad.
  destruct (ISRef.effectPageStart p d fuel s) as [[[[]|x] s'] l]; cbn [fst snd app] in *.
  - destruct (ref_effectEveryRender_shape p d s') as (r3 & s3 & l3 & H3 & _ & _ & Hp & Hl3 & _).
    rewrite H3. cbn [fst snd app]. rewrite loadMorePages_app, Hp, Hc.
    assert (E3 : loadMorePages l3 = [])
      by (destruct Hl3 as [-> | (t & y & [-> | ->])]; reflexivity).
    rewrite E3, app_nil_r. split; [exact Hl | reflexivity].
  - split; [exact Hl | exact Hc].
Qed.

(** ** Initialisation through mount and through a change of [pageStart] *)

Lemma let_attach_counter p d fuel s :
  exists r s' l,
    IS.attachScrollListener p d fuel s = (r, s', l) /\
    IS.pageLoaded s' = IS.pageLoaded s + Z.of_nat (length (loadMorePages l)) /\
    (loadMorePages l = [] \/ loadMorePages l = [IS.pageLoaded s + 1]) /\
    (initialLoad p = false -> loadMorePages l = []).
Proof.
  rewrite let_attachScrollListener_eq.
  destruct (negb (hasMore p)
            || negb (isSome (getParentElement p d (IS.scrollComponentRef s)))).
  - exists (Ok tt), s, []. simpl. repeat split; auto; lia.
  - cbv zeta. destruct (initialLoad p).
    + pose proof (let_scrollListener_counter p d fuel s) as [H1 H2]. cbv zeta in H1, H2.
      destruct (IS.scrollListener p d fuel s) as [[r s'] l].
      unfold result_of, store_of, log_of in *. cbn [fst snd] in *.
      exists r, s', (listenersOn
                      (IS.scrollTarget p (getParentElement p d (IS.scrollComponentRef s)))
                    ++ l).
      rewrite loadMorePages_listenersOn. repeat split; auto. discriminate.
    + eexists _, _, _. split; [reflexivity|]. unfold store_of, log_of. simpl.
      repeat split; auto; lia.
Qed.

Lemma pages_of_two_steps start c1 c2 (p1 p2 : list Z) :
  c1 = start + Z.of_nat (length p1) ->
  (p1 = [] \/ p1 = [start + 1]) ->
  c2 = c1 + Z.of_nat (length p2) ->
  (p2 = [] \/ p2 = [c1 + 1]) ->
  c2 = start + Z.of_nat (length (p1 ++ p2)) /\
  p1 ++ p2 = pagesFrom (start + 1) (length (p1 ++ p2)) /\
  (length (p1 ++ p2) <= 2)%nat.
Proof.
  intros H1 [-> | ->] H2 [-> | ->]; simpl in *; subst; rewrite ?Z.add_0_r;
    repeat split; try lia; reflexivity.
Qed.

(** The two effects of [IS.tsx] in a row, from a store whatever its counter. *)
Lemma let_effects_counter p d fuel s :
  let o := bind (IS.effectPageStart p d fuel)
                (fun _ => IS.effectEveryRender p d fuel) s in
  let pages := loadMorePages (log_of o) in
  IS.pageLoaded (store_of o) = IS.resetPage (pageStart p) + Z.of_nat (length pages) /\
  pages = pagesFrom (IS.resetPage (pageStart p) + 1) (length pages) /\
  (length pages <= 2)%nat /\
  (initialLoad p = false -> pages = []).
Proof.
  cbv zeta. unfold bind. rewrite let_effectPageStart_eq.
  unfold IS.effectEveryRender.
  set (sa := IS.set_pageLoaded (IS.resetPage (pageStart p)) s).
  destruct (let_attach_counter p d fuel sa) as (r & s' & l & E & Hc & Hl & Hi).
  rewrite E. change (IS.pageLoaded sa) with (IS.resetPage (pageStart p)) in Hc, Hl.
  destruct r as [[]|x].
  - destruct (let_attach_counter p d fuel s') as (r2 & s2 & l2 & E2 & Hc2 & Hl2 & Hi2).
    rewrite E2. unfold store_of, log_of. cbn [fst snd]. rewrite !loadMorePages_app.
    destruct (pages_of_two_steps _ _ _ _ _ Hc Hl Hc2 Hl2) as (A & B & C).
    repeat split; auto. intros Hf. rewrite (Hi Hf), (Hi2 Hf). reflexivity.
  - unfold store_of, log_of. cbn [fst snd].
    destruct Hl as [El | El]; rewrite El in *; simpl in *;
      repeat split; auto; lia.
Qed.

Lemma let_mount_eq p d fuel s :
  IS.mount p d fuel s
    = bind (IS.effectPageStart p d fuel) (fun _ => IS.effectEveryRender p d fuel)
        (IS.mkStore (IS.scrollComponentRef s) false 0 0 0).
Proof.
  unfold IS.mount, IS.render. run_monad.
  destruct (IS.effectPageStart p d fuel (IS.mkStore (IS.scrollComponentRef s) false 0 0 0))
    as [[[[]|x] s1] l1]; cbn [fst snd app]; [|reflexivity].
  destruct (IS.effectEveryRender p d fuel s1) as [[r2 s2] l2]. reflexivity.
Qed.

Lemma let_update_eq prev p d fuel s e :
  IS.scrollComponentRef s = Some e ->
  pageStart prev <> pageStart p ->
  let s0 := IS.mkStore (Some e) false 0 0 0 in
  let removed := log_of (IS.cleanup prev d s0) in
  let o := bind (IS.effectPageStart p d fuel)
                (fun _ => IS.effectEveryRender p d fuel) s0 in
  loadMorePages removed = [] /\
  IS.update prev p d fuel s
    = (result_of o, store_of o, removed ++ removed ++ log_of o).
Proof.
  intros He Hp. apply Z.eqb_neq in Hp. cbv zeta.
  rewrite (let_cleanup_log prev d (IS.mkStore (Some e) false 0 0 0) e eq_refl).
  split; [reflexivity|].
  unfold IS.update, IS.render. run_monad. rewrite Hp, He.
  rewrite (let_cleanup_log prev d (IS.mkStore (Some e) false 0 0 0) e eq_refl).
  cbn [fst snd app].
  rewrite ?(let_cleanup_log prev d (IS.mkStore (Some e) false 0 0 0) e eq_refl).
  cbn [fst snd app].
  destruct (IS.effectPageStart p d fuel (IS.mkStore (Some e) false 0 0 0))
    as [[[[]|x] s1] l1]; cbn [fst snd app]; [|reflexivity].
  destruct (IS.effectEveryRender p d fuel s1) as [[r2 s2] l2]. reflexivity.
Qed.

Lemma ref_effects_counter p d fuel s :
  let o := bind (ISRef.effectPageStart p d fuel)
                (fun _ => ISRef.effectEveryRender p d) s in
  let pages := loadMorePages (log_of o) in
  ISRef.pageLoadedRef (store_of o)
    = ISRef.resetPage (pageStart p) + Z.of_nat (length pages) /\
  (pages = [] \/ pages = [ISRef.resetPage (pageStart p) + 1]) /\
  (initialLoad p = false -> pages = []).
Proof.
  cbv zeta. unfold bind.
  pose proof (ref_effectPageStart_counter p d fuel s) as [Hc Hl]. cbv zeta in Hc, Hl.
  destruct (ref_effectPageStart_shape p d fuel s) as (r0 & s0 & l0 & E0 & _ & _ & _ & Hi).
  rewrite E0 in *. unfold store_of, log_of in *. cbn [fst snd] in *.
  rewrite loadMorePages_listenersOn in *.
  destruct r0 as [[]|x]; cbn [fst snd].
  - destruct (ref_effectEveryRender_shape p d s0)
      as (r3 & s3 & l3 & H3 & _ & _ & Hp & Hl3 & _).
    rewrite H3. cbn [fst snd]. rewrite !loadMorePages_app.
    cbn [listenersOn loadMorePages app].
    assert (E3 : loadMorePages l3 = [])
      by (destruct Hl3 as [-> | (t & y & [-> | ->])]; reflexivity).
    rewrite E3, app_nil_r, Hp. repeat split; auto.
    intros Hf. rewrite (Hi Hf). reflexivity.
  - rewrite loadMorePages_listenersOn. repeat split; auto.
    intros Hf. rewrite (Hi Hf). reflexivity.
Qed.

Lemma ref_mount_eq p d fuel s :
  ISRef.mount p d fuel s
    = bind (ISRef.effectPageStart p d fuel) (fun _ => ISRef.effectEveryRender p d) s.
Proof.
  unfold ISRef.mount, ISRef.render. run_monad.
  destruct (ISRef.effectPageStart p d fuel s) as [[[[]|x] s1] l1];
    cbn [fst snd app]; [|reflexivity].
  destruct (ISRef.effectEveryRender p d s1) as [[r2 s2] l2]. reflexivity.
Qed.

Lemma ref_update_eq prev p d fuel s :
  pageStart prev <> pageStart p ->
  let o := bind (ISRef.effectPageStart p d fuel)
                (fun _ => ISRef.effectEveryRender p d) s in
  ISRef.update prev p d fuel s
    = (result_of o, store_of o, removalsOn (ISRef.scrollContainerRef s) ++ log_of o).
Proof.
  intros Hp. apply Z.eqb_neq in Hp. cbv zeta.
  unfold ISRef.update, ISRef.render, ISRef.cleanup, ISRef.detachScrollListener, removalsOn.
  run_monad. rewrite Hp. cbn [fst snd app].
  destruct (ISRef.effectPageStart p d fuel s) as [[[[]|x] s1] l1];
    cbn [fst snd app]; [|reflexivity].
  destruct (ISRef.effectEveryRender p d s1) as [[r2 s2] l2]. reflexivity.
Qed.

Lemma loadMorePages_removalsOn t l :
  loadMorePages (removalsOn t ++ l) = loadMorePages l.
Proof. reflexivity. Qed.

(** C7. Every initialisation sets the counter to the start value, 0 when
    [pageStart] is the sentinel -1 and [pageStart] itself otherwise,
    whatever the counter held before.  This holds of the [pageStart] effect
    taken alone, of the mount, and of every render whose [pageStart]
    differs from the previous one (so also of the change from 0 to -1, which
    restarts at 0, and of the change from -1 to [n], which restarts at [n]):
    afterwards the counter is the start value plus the number of calls the
    initial checks of that initialisation made, those calls are numbered
    start + 1 onwards (at most one in the ref-based version, at most two in
    [IS.tsx], whose two effects both check), and without an initial check
    the counter is exactly the start value.  For [IS.tsx] the render after a
    change is taken with the element mounted. *)
Theorem page_counter_initialised :
  forall (p : InfiniteScrollProps) (d : DOM) (fuel : nat)
         (s1 : IS.Store) (s2 : ISRef.Store),
    let start := if pageStart p =? -1 then 0 else pageStart p in
    let o1 := IS.effectPageStart p d fuel s1 in
    let o2 := ISRef.effectPageStart p d fuel s2 in
    ((IS.pageLoaded (store_of o1)
        = start + Z.of_nat (length (loadMorePages (log_of o1))) /\
      (loadMorePages (log_of o1) = [] \/ loadMorePages (log_of o1) = [start + 1])) /\
     (ISRef.pageLoadedRef (store_of o2)
        = start + Z.of_nat (length (loadMorePages (log_of o2))) /\
      (loadMorePages (log_of o2) = [] \/ loadMorePages (log_of o2) = [start + 1])) /\
     (initialLoad p = false ->
      IS.pageLoaded (store_of o1) = start /\ ISRef.pageLoadedRef (store_of o2) = start)) /\
    (let m1 := IS.mount p d fuel s1 in
     let m2 := ISRef.mount p d fuel s2 in
     IS.pageLoaded (store_of m1) = start + Z.of_nat (length (loadMorePages (log_of m1))) /\
     loadMorePages (log_of m1) = pagesFrom (start + 1) (length (loadMorePages (log_of m1))) /\
     ISRef.pageLoadedRef (store_of m2)
       = start + Z.of_nat (length (loadMorePages (log_of m2))) /\
     (loadMorePages (log_of m2) = [] \/ loadMorePages (log_of m2) = [start + 1]) /\
     (initialLoad p = false ->
      IS.pageLoaded (store_of m1) = start /\ ISRef.pageLoadedRef (store_of m2) = start)) /\
    (forall prev : InfiniteScrollProps,
       pageStart prev <> pageStart p ->
       let u2 := ISRef.update prev p d fuel s2 in
       (ISRef.pageLoadedRef (store_of u2)
          = start + Z.of_nat (length (loadMorePages (log_of u2))) /\
        (loadMorePages (log_of u2) = [] \/ loadMorePages (log_of u2) = [start + 1]) /\
        (initialLoad p = false -> ISRef.pageLoadedRef (store_of u2) = start)) /\
       (forall e : ref,
          IS.scrollComponentRef s1 = Some e ->
          let u1 := IS.update prev p d fuel s1 in
          IS.pageLoaded (store_of u1)
            = start + Z.of_nat (length (loadMorePages (log_of u1))) /\
          loadMorePages (log_of u1) = pagesFrom (start + 1) (length (loadMorePages (log_of u1))) /\
          (initialLoad p = false -> IS.pageLoaded (store_of u1) = start))).
Proof.
  intros p d fuel s1 s2. cbv zeta. split; [|split].
  - exact (pageStart_effect_counter p d fuel s1 s2).
  - rewrite let_mount_eq, ref_mount_eq.
    pose proof (let_effects_counter p d fuel
                  (IS.mkStore (IS.scrollComponentRef s1) false 0 0 0)) as (A & B & _ & C).
    pose proof (ref_effects_counter p d fuel s2) as (A' & B' & C').
    cbv zeta in A, B, C, A', B', C'.
    fold (IS.resetPage (pageStart p)).
    change (ISRef.resetPage (pageStart p)) with (IS.resetPage (pageStart p)) in *.
    repeat split; auto.
    + rewrite A, (C H). simpl. lia.
    + rewrite A', (C' H). simpl. lia.
  - intros prev Hp. fold (IS.resetPage (pageStart p)). split.
    + rewrite (ref_update_eq prev p d fuel s2 Hp).
      pose proof (ref_effects_counter p d fuel s2) as H. cbv zeta in H.
      change (ISRef.resetPage (pageStart p)) with (IS.resetPage (pageStart p)) in H.
      set (o := bind (ISRef.effectPageStart p d fuel)
                     (fun _ => ISRef.effectEveryRender p d) s2) in *.
      clearbody o. destruct o as [[r s'] l].
      unfold result_of, store_of, log_of in *. cbn [fst snd] in *.
      rewrite loadMorePages_removalsOn. destruct H as (A' & B' & C').
      repeat split; auto. intros Hf. rewrite A', (C' Hf). simpl. lia.
    + intros e He.
      destruct (let_update_eq prev p d fuel s1 e He Hp) as [Hrm Hu].
      cbv zeta in Hrm, Hu. rewrite Hu.
      pose proof (let_effects_counter p d fuel (IS.mkStore (Some e) false 0 0 0)) as H.
      cbv zeta in H.
      set (o := bind (IS.effectPageStart p d fuel)
                     (fun _ => IS.effectEveryRender p d fuel)
                     (IS.mkStore (Some e) false 0 0 0)) in *.
      clearbody o. destruct o as [[r s'] l].
      set (removed := log_of (IS.cleanup prev d (IS.mkStore (Some e) false 0 0 0))) in *.
      clearbody removed.
      unfold result_of, store_of, log_of in *. cbn [fst snd] in *.
      rewrite !loadMorePages_app, !Hrm. cbn [app]. destruct H as (A & B & _ & C).
      repeat split; auto. intros Hf. rewrite A, (C Hf). simpl. lia.
Qed.

Lemma page_counter_initialised_witness :
  let d := Examples.page 120 true in
  ISRef.pageLoadedRef
    (store_of (ISRef.update (MoreExamples.quietAt 0) (MoreExamples.quietAt (-1)) d 3
                 (ISRef.set_pageLoadedRef 4 (ISRef.initialStore (Some 2%nat))))) = 0 /\
  IS.pageLoaded
    (store_of (IS.update (MoreExamples.quietAt 0) (MoreExamples.quietAt (-1)) d 3
                 (IS.set_pageLoaded 4 Examples.fresh))) = 0 /\
  ISRef.pageLoadedRef
    (store_of (ISRef.update (MoreExamples.quietAt (-1)) (MoreExamples.quietAt 7) d 3
                 (ISRef.set_pageLoadedRef 4 (ISRef.initialStore (Some 2%nat))))) = 7 /\
  IS.pageLoaded
    (store_of (IS.update (MoreExamples.quietAt (-1)) (MoreExamples.quietAt 7) d 3
                 (IS.set_pageLoaded 4 Examples.fresh))) = 7.
Proof.
  cbv zeta.
  assert (Hdown : pageStart (MoreExamples.quietAt 0) <> pageStart (MoreExamples.quietAt (-1)))
    by (simpl; discriminate).
  assert (Hup : pageStart (MoreExamples.quietAt (-1)) <> pageStart (MoreExamples.quietAt 7))
    by (simpl; discriminate).
  destruct (proj2 (proj2 (page_counter_initialised (MoreExamples.quietAt (-1))
                            (Examples.page 120 true) 3
                            (IS.set_pageLoaded 4 Examples.fresh)
                            (ISRef.set_pageLoadedRef 4 (ISRef.initialStore (Some 2%nat)))))
              (MoreExamples.quietAt 0) Hdown) as [(_ & _ & Hr) Hl].
  destruct (proj2 (proj2 (page_counter_initialised (MoreExamples.quietAt 7)
                            (Examples.page 120 true) 3
                            (IS.set_pageLoaded 4 Examples.fresh)
                            (ISRef.set_pageLoadedRef 4 (ISRef.initialStore (Some 2%nat)))))
              (MoreExamples.quietAt (-1)) Hup) as [(_ & _ & Hr') Hl'].
  exact (conj (Hr eq_refl)
           (conj (proj2 (proj2 (Hl 2%nat eq_refl)) eq_refl)
              (conj (Hr' eq_refl)
                 (proj2 (proj2 (Hl' 2%nat eq_refl)) eq_refl)))).
Defined.
